(** * NUSGPA: a shallow embedding of [app.py] and its GPA analytics

    The Streamlit app keeps the course record as a pandas DataFrame in the
    session state, recomputes the per-semester summary on every rerun, and
    imports/exports the record as CSV.  Numbers are modelled exactly as
    rationals [Q]: grade points are multiples of 0.5 and credits are the
    decimals the user types, so pandas' floating point sums are taken as
    exact sums.  Pandas' [NaN] and infinities appear explicitly where the
    source can produce them (unknown grades, division by a zero total). *)

From Stdlib Require Import ZArith QArith List String Ascii Bool Lia Lqa
  Permutation Sorted.
Import ListNotations.
Open Scope string_scope.

(* ------------------------------------------------------------------ *)
(** ** Section 1 of [app.py]: fixed tables *)

(** [grade_map], in the order of the Python dict literal. *)
Definition grade_table : list (string * Q) :=
  [("A+", 5#1); ("A", 5#1); ("A-", 9#2);
   ("B+", 4#1); ("B", 7#2); ("B-", 3#1);
   ("C+", 5#2); ("C", 2#1); ("D+", 3#2);
   ("D", 1#1); ("F", 0#1);
   ("CS", 0#1); ("CU", 0#1); ("IP", 0#1)].

Fixpoint assoc_lookup {A : Type} (k : string) (t : list (string * A))
  : option A :=
  match t with
  | [] => None
  | (k', v) :: t' => if String.eqb k k' then Some v else assoc_lookup k t'
  end.

(** [grade_map[g]] / [grade_map.get(g)]: [None] when [g] is not a key. *)
Definition grade_map (g : string) : option Q := assoc_lookup g grade_table.

(** [sem_mapping]. *)
Definition sem_mapping : list (string * Z) :=
  [("Y1 S1", 1%Z); ("Y1 S2", 2%Z); ("Y2 S1", 3%Z); ("Y2 S2", 4%Z);
   ("Y3 S1", 5%Z); ("Y3 S2", 6%Z); ("Y4 S1", 7%Z); ("Y4 S2", 8%Z);
   ("Y5 S1", 9%Z); ("Y5 S2", 10%Z); ("Y6 S1", 11%Z); ("Y6 S2", 12%Z);
   ("Special Term", 99%Z)].

(* ------------------------------------------------------------------ *)
(** ** The course record (the [st.session_state.courses] DataFrame) *)

(** A cell of a text column ([Course], [Grade]).  After [pd.read_csv] a
    column may hold strings, numbers (kept here by their text), booleans (a
    column of true/false words) or [NaN]. *)
Inductive cell : Type :=
| CStr (s : string)
| CNum (txt : string)
| CBool (b : bool)
| CNaN.

(** One row over the five canonical columns.  Values of extra columns an
    imported file may carry are not modelled (no computation reads them). *)
Record course_row : Type := mk_row {
  Course : cell;
  Semester : Z;
  Grade : cell;
  Credits : Q;
  SU_Opt_Out : bool
}.

(** The DataFrame: its column names and its rows in index order. *)
Record frame : Type := mk_frame {
  columns : list string;
  rows : list course_row
}.

Definition canonical_columns : list string :=
  ["Course"; "Semester"; "Grade"; "Credits"; "SU_Opt_Out"].

(* ------------------------------------------------------------------ *)
(** ** Section 7: analytics *)

(** Pandas float results that the summary can produce. *)
Inductive fval : Type :=
| Fin (q : Q)
| NaN
| PInf
| NInf.

(** [p / c] on float64 series: [0/0] is [NaN], [x/0] is [+-inf]. *)
Definition fdiv (p c : Q) : fval :=
  if Qeq_bool c 0 then
    (if Qeq_bool p 0 then NaN
     else if Qle_bool p 0 then NInf else PInf)
  else Fin (p / c).

(** [.fillna(0)]. *)
Definition fillna0 (v : fval) : fval :=
  match v with NaN => Fin 0 | _ => v end.

Definition NON_GPA_GRADES : list string := ["CS"; "CU"; "IP"].

(** [df["Grade"].map(grade_map)]: non-keys (and non-strings) map to [NaN],
    written [None]. *)
Definition grade_value (g : cell) : option Q :=
  match g with CStr s => grade_map s | _ => None end.

(** [x["Grade"] in NON_GPA_GRADES]. *)
Definition in_non_gpa (g : cell) : bool :=
  match g with
  | CStr s => existsb (String.eqb s) NON_GPA_GRADES
  | _ => false
  end.

(** [Calc_Credits]:
    [0 if (x["SU_Opt_Out"] or x["Grade"] in NON_GPA_GRADES) else x["Credits"]]. *)
Definition calc_credits (r : course_row) : Q :=
  if SU_Opt_Out r || in_non_gpa (Grade r) then 0 else Credits r.

(** [Quality_Points = Grade Value * Calc_Credits]; [NaN * x] is [NaN]. *)
Definition quality_points (r : course_row) : option Q :=
  match grade_value (Grade r) with
  | Some v => Some (v * calc_credits r)
  | None => None
  end.

(** [Series.sum()] over a column without missing values. *)
Fixpoint sum_q (xs : list Q) : Q :=
  match xs with [] => 0 | x :: t => x + sum_q t end.

(** [Series.sum()] with its default [skipna=True]: [NaN]s are skipped. *)
Fixpoint nansum (xs : list (option Q)) : Q :=
  match xs with
  | [] => 0
  | None :: t => nansum t
  | Some x :: t => x + nansum t
  end.

(** Group keys of [df.groupby("Semester")] (default [sort=True]): the
    distinct semester values in ascending order. *)
Fixpoint insert_key (k : Z) (ks : list Z) : list Z :=
  match ks with
  | [] => [k]
  | k' :: t =>
      if (k <? k')%Z then k :: ks
      else if (k =? k')%Z then ks
      else k' :: insert_key k t
  end.

Definition group_keys (l : list course_row) : list Z :=
  fold_right (fun r ks => insert_key (Semester r) ks) [] l.

(** The group of one key. *)
Definition group_rows (l : list course_row) (t : Z) : list course_row :=
  filter (fun r => Z.eqb (Semester r) t) l.

(** The lambda applied to each group: [Term Credits], [Term Points], [Mods]. *)
Definition term_totals (x : list course_row) : Q * Q * nat :=
  (sum_q (map calc_credits x), nansum (map quality_points x), List.length x).

(** A row of [summary] after all its columns are computed. *)
Record term_summary : Type := mk_summary {
  ts_semester : Z;
  term_credits : Q;
  term_points : Q;
  mods : nat;
  sem_gpa : fval;
  cum_points : Q;
  cum_credits : Q;
  cum_gpa : fval
}.

(** [Sem GPA], then the two [cumsum]s and [Cumulative GPA], walking the
    grouped rows in order with the running sums [cp], [cc]. *)
Fixpoint with_cumsum (cp cc : Q) (g : list (Z * (Q * Q * nat)))
  : list term_summary :=
  match g with
  | [] => []
  | (t, (cr, pts, n)) :: g' =>
      let cp' := cp + pts in
      let cc' := cc + cr in
      mk_summary t cr pts n (fillna0 (fdiv pts cr))
                 cp' cc' (fillna0 (fdiv cp' cc'))
      :: with_cumsum cp' cc' g'
  end.

(** [summary] as computed in Section 7 for the rows [l] of the record. *)
Definition summarize (l : list course_row) : list term_summary :=
  with_cumsum 0 0
    (map (fun t => (t, term_totals (group_rows l t))) (group_keys l)).

(** [current_gpa >= threshold] on a float. *)
Definition fge (v : fval) (th : Q) : bool :=
  match v with
  | Fin q => Qle_bool th q
  | PInf => true
  | NInf | NaN => false
  end.

(** The [class_label] chain. *)
Definition class_label (current_gpa : fval) : string :=
  if fge current_gpa (9#2) then "🥇 First Class Honours"
  else if fge current_gpa (4#1) then "🥈 Second Class (Upper)"
  else if fge current_gpa (7#2) then "🥉 Second Class (Lower)"
  else if fge current_gpa (3#1) then "🎓 Third Class"
  else if fge current_gpa (2#1) then "📜 Pass"
  else "⚠️ Below Graduation Req".

(** Section 7 as a whole: nothing when the record is empty, otherwise the
    summary, [current_gpa = summary.iloc[-1]["Cumulative GPA"]] and the
    label. *)
Definition analytics (courses : frame)
  : option (list term_summary * fval * string) :=
  match rows courses with
  | [] => None
  | _ =>
      let summary := summarize (rows courses) in
      let current_gpa := last (map cum_gpa summary) (Fin 0) in
      Some (summary, current_gpa, class_label current_gpa)
  end.

(** A semester of the summary, looked up by key. *)
Fixpoint find_term (t : Z) (s : list term_summary) : option term_summary :=
  match s with
  | [] => None
  | e :: s' => if Z.eqb (ts_semester e) t then Some e else find_term t s'
  end.

(* ------------------------------------------------------------------ *)
(** ** Section 3: session state *)

(** The session keys the callbacks read and write. *)
Record session : Type := mk_session {
  courses : frame;
  last_loaded_hash : option Z;
  course_name_input : string;
  credits_input : Q;
  search_selection : option string;
  sem_input_label : string;
  grade_input : string;
  su_input : bool
}.

(** Python truthiness of a string. *)
Definition truthy (s : string) : bool := negb (String.eqb s "").

Definition mem_str (c : string) (cs : list string) : bool :=
  existsb (String.eqb c) cs.

(** [pd.concat([courses, new_row], ignore_index=True)]: the rows are
    appended and the column set is the union of both frames' columns. *)
Definition concat_row (f : frame) (r : course_row) : frame :=
  mk_frame (columns f ++ filter (fun c => negb (mem_str c (columns f)))
                                canonical_columns)
           (rows f ++ [r]).

(* ------------------------------------------------------------------ *)
(** ** Section 4: [add_course_callback] *)

Definition add_course_callback (st : session) : session :=
  let name := course_name_input st in
  let sem_label := sem_input_label st in
  let grade := grade_input st in
  let credits := credits_input st in
  let su := su_input st in
  let sem_int :=
    match assoc_lookup sem_label sem_mapping with
    | Some z => z
    | None => 1%Z
    end in
  let final_name :=
    if truthy name then name
    else match search_selection st with
         | Some sel => if truthy sel then sel else "Unknown Course"
         | None => "Unknown Course"
         end in
  let new_row := mk_row (CStr final_name) sem_int (CStr grade) credits su in
  mk_session (concat_row (courses st) new_row) (last_loaded_hash st)
             "" (credits_input st) None (sem_input_label st)
             (grade_input st) (su_input st).

(* ------------------------------------------------------------------ *)
(** ** Number and boolean syntax of [pd.read_csv] (C parser) *)



(** The float syntax of the C parser ([xstrtod], [str_to_int64]): ASCII
    white space around the field is skipped, then an optional sign, digits
    with an optional fraction (at least one digit), optional exponent; or
    [inf] / [infinity] in any case (matched on the field as it is). *)
Definition is_digit (c : ascii) : bool :=
  let n := nat_of_ascii c in (Nat.leb 48 n && Nat.leb n 57)%bool.

(** [isspace_ascii]: space, [\t], [\n], [\v], [\f], [\r]. *)
Definition is_space (c : ascii) : bool :=
  let n := nat_of_ascii c in (Nat.eqb n 32 || (Nat.leb 9 n && Nat.leb n 13))%bool.

Fixpoint drop_space (cs : list ascii) : list ascii :=
  match cs with
  | c :: t => if is_space c then drop_space t else cs
  | [] => []
  end.

Definition trim_space (cs : list ascii) : list ascii :=
  rev (drop_space (rev (drop_space cs))).

Definition strip_sign (cs : list ascii) : list ascii :=
  match cs with
  | c :: t => if (Ascii.eqb c "+" || Ascii.eqb c "-")%bool then t else cs
  | [] => []
  end.




Definition lower (c : ascii) : ascii :=
  let n := nat_of_ascii c in
  if (Nat.leb 65 n && Nat.leb n 90)%bool then ascii_of_nat (n + 32) else c.


Definition inf_text (cs : list ascii) : bool :=
  let w := string_of_list_ascii (map lower (strip_sign cs)) in
  (String.eqb w "inf" || String.eqb w "infinity")%bool.






(** [Series.astype(bool)] on one cell: a boolean is kept, a string is
    [True] unless empty, [NaN] is [True], a number is [True] unless zero
    (numbers are exact here, as everywhere in this development: a literal
    whose float rounds to zero is out of scope). *)
Fixpoint mantissa (cs : list ascii) : list ascii :=
  match cs with
  | c :: t => if (Ascii.eqb c "e" || Ascii.eqb c "E")%bool then [] else c :: mantissa t
  | [] => []
  end.

Definition num_nonzero (s : string) : bool :=
  let cs := list_ascii_of_string s in
  (inf_text cs ||
   existsb (fun c => is_digit c && negb (Ascii.eqb c "0")) (mantissa (trim_space cs)))%bool.

Definition astype_bool (c : cell) : bool :=
  match c with
  | CBool b => b
  | CStr s => truthy s
  | CNum s => num_nonzero s
  | CNaN => true
  end.

(* ------------------------------------------------------------------ *)
(** ** Section 5.1: the CSV upload handler *)

(** A row of the DataFrame [pd.read_csv] returns: [Semester] and [Credits]
    as values, [Course], [Grade] and [SU_Opt_Out] as the cells the column
    inference produced. *)
Record raw_row : Type := mk_raw {
  raw_Course : cell;
  raw_Semester : Z;
  raw_Grade : cell;
  raw_Credits : Q;
  raw_SU : cell
}.

Record raw_frame : Type := mk_raw_frame {
  raw_columns : list string;
  raw_rows : list raw_row
}.

(** An uploaded file: its fingerprint [hash(uploaded_file.getvalue())] and
    the result of [pd.read_csv] on it ([None] when [read_csv] raises). *)
Record upload : Type := mk_upload {
  fingerprint : Z;
  parsed : option raw_frame
}.

Definition REQUIRED_COLUMNS : list string :=
  ["Course"; "Semester"; "Grade"; "Credits"; "SU_Opt_Out"].

(** What the handler shows: nothing, [st.error] with the missing columns,
    [st.error] for an exception, or [st.success("Loaded!")]. *)
Inductive notice : Type :=
| NoNotice
| ErrMissing (missing : list string)
| ErrException
| Loaded.

Definition set_loaded (st : session) (df : frame) (h : Z) : session :=
  mk_session df (Some h) (course_name_input st) (credits_input st)
             (search_selection st) (sem_input_label st) (grade_input st)
             (su_input st).

(** [df_uploaded["SU_Opt_Out"] = df_uploaded["SU_Opt_Out"].astype(bool)]. *)
Definition su_astype (df : raw_frame) : frame :=
  mk_frame (raw_columns df)
    (map (fun r => mk_row (raw_Course r) (raw_Semester r) (raw_Grade r)
                          (raw_Credits r) (astype_bool (raw_SU r)))
         (raw_rows df)).

(** The [if uploaded_file is not None:] block. *)
Definition upload_handler (st : session) (f : option upload)
  : session * notice :=
  match f with
  | None => (st, NoNotice)
  | Some u =>
      let file_fingerprint := fingerprint u in
      let fresh :=
        match last_loaded_hash st with
        | Some h => negb (Z.eqb h file_fingerprint)
        | None => true
        end in
      if fresh then
        match parsed u with
        | None => (st, ErrException)
        | Some df_uploaded =>
            if forallb (fun c => mem_str c (raw_columns df_uploaded))
                       REQUIRED_COLUMNS
            then (set_loaded st (su_astype df_uploaded) file_fingerprint, Loaded)
            else (st, ErrMissing
                        (filter (fun c => negb (mem_str c (raw_columns df_uploaded)))
                                REQUIRED_COLUMNS))
        end
      else (st, NoNotice)
  end.

(* ------------------------------------------------------------------ *)
(** ** Section 5.2: CSV export ([to_csv(index=False)]) and [pd.read_csv] *)







(* ------------------------------------------------------------------ *)
(** ** Reference formulations used by the statements *)

(** [grade_point] of a row: its [grade_map] value, and 0.0 for a grade that
    is not a key (whose [NaN] quality points the [skipna] sum drops). *)
Definition grade_point (r : course_row) : Q :=
  match grade_value (Grade r) with Some v => v | None => 0 end.

(** The rows of term [t] that bear credit: not opted out, not a marker. *)
Definition credit_bearing (t : Z) (r : course_row) : bool :=
  (Z.eqb (Semester r) t && negb (SU_Opt_Out r) && negb (in_non_gpa (Grade r)))%bool.

(** A quotient defined as 0 when the denominator is 0. *)
Definition ratio_or_zero (p c : Q) : Q :=
  if Qeq_bool c 0 then 0 else p / c.

(** Equality of pandas floats up to the value of the rationals. *)
Definition feq (a b : fval) : Prop :=
  match a, b with
  | Fin x, Fin y => x == y
  | NaN, NaN | PInf, PInf | NInf, NInf => True
  | _, _ => False
  end.

(** The honours table, evaluated top-down with inclusive lower bounds;
    the labels are the strings [app.py] displays. *)
Definition honours_table : list (Q * string) :=
  [(9#2, "🥇 First Class Honours");
   (4#1, "🥈 Second Class (Upper)");
   (7#2, "🥉 Second Class (Lower)");
   (3#1, "🎓 Third Class");
   (2#1, "📜 Pass")].

Definition below_label : string := "⚠️ Below Graduation Req".

Fixpoint first_match (tbl : list (Q * string)) (default : string) (q : Q)
  : string :=
  match tbl with
  | [] => default
  | (th, lbl) :: t => if Qle_bool th q then lbl else first_match t default q
  end.

(** Two grouped tables with the same keys and equal totals. *)
Definition totals_eq (a b : Z * (Q * Q * nat)) : Prop :=
  fst a = fst b /\ fst (fst (snd a)) == fst (fst (snd b)) /\
  snd (fst (snd a)) == snd (fst (snd b)).

(* ------------------------------------------------------------------ *)
(** ** Concrete inputs *)

Definition empty_session : session :=
  mk_session (mk_frame canonical_columns []) None "" (4#1) None "Y1 S1" "A" false.

Definition row_cs1010 : course_row := mk_row (CStr "CS1010") 1 (CStr "A") (4#1) false.
Definition row_ma1521 : course_row := mk_row (CStr "MA1521") 1 (CStr "B+") (4#1) false.
Definition row_su_a : course_row := mk_row (CStr "GEA1000") 2 (CStr "A") (4#1) true.
(** A row as a hand-edited CSV can carry it: grade outside [grade_map]. *)
Definition row_tampered : course_row := mk_row (CStr "GE1000") 2 (CStr "Z") (4#1) false.
Definition row_negative : course_row := mk_row (CStr "CS2030") 1 (CStr "A") (-1#1) false.

Definition row_special : course_row := mk_row (CStr "CS2101") 99 (CStr "B") (4#1) false.

Definition spec_ledger : list course_row := [row_cs1010; row_ma1521; row_su_a].

(** A row as [read_csv] returns it from a file with a boolean
    [SU_Opt_Out] column. *)
Definition raw_of_row (r : course_row) : raw_row :=
  mk_raw (Course r) (Semester r) (Grade r) (Credits r) (CBool (SU_Opt_Out r)).

Definition upload_invalid_rows : upload :=
  mk_upload 7 (Some (mk_raw_frame canonical_columns
                       (map raw_of_row [row_negative; row_tampered]))).

(** A file whose [SU_Opt_Out] column is text: a blank cell ([NaN]) and the
    word [False] next to a word [read_csv] cannot read as a boolean. *)
Definition upload_su_text : upload :=
  mk_upload 9 (Some (mk_raw_frame canonical_columns
    [mk_raw (CStr "CS1010") 1 (CStr "A") (4#1) CNaN;
     mk_raw (CStr "MA1521") 1 (CStr "B+") (4#1) (CStr "False");
     mk_raw (CStr "GEA1000") 2 (CStr "A") (4#1) (CStr "no")])).

(** A file without the [Credits] column (the credits of its row are unused). *)
Definition upload_no_credits : upload :=
  mk_upload 8 (Some (mk_raw_frame ["Course"; "Semester"; "Grade"; "SU_Opt_Out"]
                                  [raw_of_row row_cs1010])).


(** The form with no typed name and a catalog search selection. *)
Definition session_with_selection : session :=
  mk_session (mk_frame canonical_columns []) None "" (4#1)
             (Some "CS1010: Programming Methodology") "Y1 S1" "A" false.

(* ------------------------------------------------------------------ *)
(** ** Section 2: academic years *)

Fixpoint uint_digits (u : Decimal.uint) : string :=
  match u with
  | Decimal.Nil => ""
  | Decimal.D0 u => "0" ++ uint_digits u
  | Decimal.D1 u => "1" ++ uint_digits u
  | Decimal.D2 u => "2" ++ uint_digits u
  | Decimal.D3 u => "3" ++ uint_digits u
  | Decimal.D4 u => "4" ++ uint_digits u
  | Decimal.D5 u => "5" ++ uint_digits u
  | Decimal.D6 u => "6" ++ uint_digits u
  | Decimal.D7 u => "7" ++ uint_digits u
  | Decimal.D8 u => "8" ++ uint_digits u
  | Decimal.D9 u => "9" ++ uint_digits u
  end.

(** Python's [str] / f-string of an int. *)
Definition str_int (z : Z) : string :=
  match Z.to_int z with
  | Decimal.Pos u => uint_digits u
  | Decimal.Neg u => "-" ++ uint_digits u
  end.

(** [f"{y}-{y+1}"]. *)
Definition ay_string (y : Z) : string := str_int y ++ "-" ++ str_int (y + 1).

(** [get_current_acad_year], for [now.year] and [now.month]. *)
Definition get_current_acad_year (year month : Z) : string :=
  if (month >=? 6)%Z then ay_string year else ay_string (year - 1).

(** [current.split("-")[0]] read back with [int]: the leading year. *)
Definition start_year (year month : Z) : Z :=
  if (month >=? 6)%Z then year else (year - 1)%Z.

(** [sorted(xs, reverse=True)] on distinct strings: a stable insertion in
    descending code-point order. *)
Fixpoint insert_desc (x : string) (acc : list string) : list string :=
  match acc with
  | [] => [x]
  | y :: t => if String.ltb y x then x :: acc else y :: insert_desc x t
  end.

Definition sorted_desc (xs : list string) : list string :=
  fold_left (fun acc x => insert_desc x acc) xs [].

(** [range(start_year - 4, start_year + 2)]. *)
Definition py_range (a b : Z) : list Z :=
  map (fun i => a + Z.of_nat i)%Z (seq 0 (Z.to_nat (b - a))).

Definition get_ay_options (year month : Z) : list string * string :=
  let current := get_current_acad_year year month in
  let start := start_year year month in
  let years := map ay_string (py_range (start - 4) (start + 2)) in
  (sorted_desc years, current).

(** [list.index(x)]: [None] where Python raises [ValueError]. *)
Fixpoint list_index (x : string) (xs : list string) : option nat :=
  match xs with
  | [] => None
  | y :: t => if String.eqb x y then Some O
              else option_map S (list_index x t)
  end.

(** The [try: default_index = ay_options.index(default_ay)] block. *)
Definition default_index (year month : Z) : nat :=
  let (ay_options, default_ay) := get_ay_options year month in
  match list_index default_ay ay_options with Some i => i | None => O end.

(* ------------------------------------------------------------------ *)
(** ** Sections 2 and 4: module search *)

(** A row of the NUSMods module list. *)
Record module_info : Type := mk_module {
  moduleCode : string;
  title : string
}.

(** [df["moduleCode"] + ": " + df["title"]]. *)
Definition display_label (m : module_info) : string :=
  moduleCode m ++ ": " ++ title m.

(** [get_module_credits]: [fetch ay code] is the value of
    [float(data.get("moduleCredit", 4.0))] when the request, the JSON
    decoding and the conversion succeed, [None] when one of them raises. *)
Definition get_module_credits (fetch : string -> string -> option Q)
  (acad_year module_code : string) : Q :=
  match fetch acad_year module_code with Some q => q | None => 4#1 end.

(** [on_module_select]; [None] where [.iloc[0]] raises [IndexError]. *)
Definition on_module_select (fetch : string -> string -> option Q)
  (selected_ay : string) (modules_df : list module_info) (st : session)
  : option session :=
  match search_selection st with
  | Some selection =>
      if (truthy selection && negb (match modules_df with [] => true | _ => false end))%bool
      then
        match find (fun m => String.eqb (display_label m) selection) modules_df with
        | Some row =>
            let code := moduleCode row in
            Some (mk_session (courses st) (last_loaded_hash st) code
                    (get_module_credits fetch selected_ay code)
                    (search_selection st) (sem_input_label st)
                    (grade_input st) (su_input st))
        | None => None
        end
      else Some st
  | None => Some st
  end.

(* ------------------------------------------------------------------ *)
(** ** Sections 3, 4 and 6: reset and the data editor *)

(** The session together with [uploader_id]. *)
Record app_state : Type := mk_app {
  app : session;
  uploader_id : Z
}.

Definition reset_app_callback (a : app_state) : app_state :=
  let st := app a in
  mk_app (mk_session (mk_frame canonical_columns []) None "" (credits_input st)
                     None (sem_input_label st) (grade_input st) (su_input st))
         (uploader_id a + 1).

(** [if not edited_df.equals(courses): courses = edited_df]. *)
Definition editor_sync (st : session) (edited_df : frame) : session :=
  mk_session edited_df (last_loaded_hash st) (course_name_input st)
             (credits_input st) (search_selection st) (sem_input_label st)
             (grade_input st) (su_input st).

(* ------------------------------------------------------------------ *)
(** ** Section 7: chart data *)

(** [get_chart_grade]; [grade_map.get(g, 0)]. *)
Definition get_chart_grade (r : course_row) : cell :=
  if SU_Opt_Out r then
    let original_val :=
      match Grade r with
      | CStr s => match grade_map s with Some v => v | None => 0 end
      | _ => 0
      end in
    if Qle_bool (2#1) original_val then CStr "CS" else CStr "CU"
  else Grade r.

Definition cell_eqb (a b : cell) : bool :=
  match a, b with
  | CStr x, CStr y => String.eqb x y
  | CNum x, CNum y => String.eqb x y
  | CBool x, CBool y => Bool.eqb x y
  | CNaN, CNaN => true
  | _, _ => false
  end.

Definition is_nan_cell (c : cell) : bool :=
  match c with CNaN => true | _ => false end.

Fixpoint count_cell (c : cell) (xs : list cell) : nat :=
  match xs with
  | [] => O
  | x :: t => if cell_eqb c x then S (count_cell c t) else count_cell c t
  end.

(** Distinct non-missing values, in order of first appearance. *)
Fixpoint distinct_cells (seen : list cell) (xs : list cell) : list cell :=
  match xs with
  | [] => []
  | x :: t =>
      if is_nan_cell x || existsb (cell_eqb x) seen
      then distinct_cells seen t
      else x :: distinct_cells (x :: seen) t
  end.

Fixpoint insert_by_count (p : cell * nat) (acc : list (cell * nat))
  : list (cell * nat) :=
  match acc with
  | [] => [p]
  | q :: t => if Nat.ltb (snd q) (snd p) then p :: acc else q :: insert_by_count p t
  end.

(** [Series.value_counts()]: missing values dropped, one entry per
    distinct value, by decreasing count (ties in order of first appearance;
    pandas leaves their order unspecified and the chart re-sorts the bars
    by [grade_order]).  Cells are compared as [cell_eqb] does: numbers by
    their text, where pandas compares their values (the chart column holds
    the grade text in every row [app.py] writes). *)
Definition value_counts (xs : list cell) : list (cell * nat) :=
  fold_left (fun acc p => insert_by_count p acc)
    (map (fun c => (c, count_cell c xs)) (distinct_cells [] xs)) [].

(** [dist_df]. *)
Definition dist_df (l : list course_row) : list (cell * nat) :=
  value_counts (map get_chart_grade l).

(** [grade_order = list(grade_map.keys())]. *)
Definition grade_order : list string := map fst grade_table.

(** [rev_mapping = {v: k for k, v in sem_mapping.items()}]: a later key
    overwrites an earlier one with the same value, so the lookup reads the
    reversed item list. *)
Definition rev_mapping : list (Z * string) :=
  rev (map (fun kv => (snd kv, fst kv)) sem_mapping).

Fixpoint z_lookup (k : Z) (t : list (Z * string)) : option string :=
  match t with
  | [] => None
  | (k', v) :: t' => if Z.eqb k k' then Some v else z_lookup k t'
  end.

(** [chart_data["Semester"].map(rev_mapping)]: [None] is [NaN]. *)
Definition sem_label (sem : Z) : option string := z_lookup sem rev_mapping.

(** The total credit-bearing credits and quality points of a record. *)
Definition total_credits (l : list course_row) : Q := sum_q (map calc_credits l).
Definition total_points (l : list course_row) : Q := nansum (map quality_points l).

Definition sum_nat (xs : list nat) : nat := fold_right Nat.add O xs.

(* ------------------------------------------------------------------ *)
(** ** Group keys *)

Lemma insert_key_In (k x : Z) (ks : list Z) :
  In x (insert_key k ks) <-> x = k \/ In x ks.
Proof.
  induction ks as [|k' t IH]; simpl.
  - intuition congruence.
  - destruct (k <? k')%Z eqn:Hlt; simpl; [intuition congruence|].
    destruct (k =? k')%Z eqn:Heq; simpl.
    + apply Z.eqb_eq in Heq; subst; intuition congruence.
    + rewrite IH; intuition congruence.
Qed.

Lemma insert_key_sorted (k : Z) (ks : list Z) :
  StronglySorted Z.lt ks -> StronglySorted Z.lt (insert_key k ks).
Proof.
  induction 1 as [|k' t Hs IH Hf]; simpl.
  - repeat constructor.
  - destruct (k <? k')%Z eqn:Hlt.
    + apply Z.ltb_lt in Hlt.
      constructor; [constructor; assumption|].
      constructor; [assumption|].
      eapply Forall_impl; [|exact Hf]; intros y Hy; simpl in Hy; lia.
    + destruct (k =? k')%Z eqn:Heq; [constructor; assumption|].
      apply Z.ltb_ge in Hlt; apply Z.eqb_neq in Heq.
      constructor; [assumption|].
      apply Forall_forall; intros y Hy; apply insert_key_In in Hy.
      destruct Hy as [->|Hy]; [lia|].
      rewrite Forall_forall in Hf; apply Hf; assumption.
Qed.

Lemma group_keys_sorted (l : list course_row) :
  StronglySorted Z.lt (group_keys l).
Proof.
  induction l as [|r l IH]; simpl; [constructor|].
  apply insert_key_sorted; assumption.
Qed.

Lemma group_keys_In (l : list course_row) (t : Z) :
  In t (group_keys l) <-> In t (map Semester l).
Proof.
  induction l as [|r l IH]; simpl; [tauto|].
  rewrite insert_key_In, IH; intuition.
Qed.

(** Two strictly ascending lists with the same elements are equal. *)
Lemma sorted_same_elements (a b : list Z) :
  StronglySorted Z.lt a -> StronglySorted Z.lt b ->
  (forall x, In x a <-> In x b) -> a = b.
Proof.
  revert b; induction a as [|x a IH]; intros b Ha Hb Hab.
  - destruct b as [|y b]; [reflexivity|].
    exfalso; apply (proj2 (Hab y)); left; reflexivity.
  - destruct b as [|y b].
    + exfalso; apply (proj1 (Hab x)); left; reflexivity.
    + inversion Ha as [|? ? Ha' Hfa]; subst.
      inversion Hb as [|? ? Hb' Hfb]; subst.
      rewrite Forall_forall in Hfa, Hfb.
      assert (x = y) as <-.
      { destruct (proj1 (Hab x) (or_introl eq_refl)) as [|Hx]; [congruence|].
        destruct (proj2 (Hab y) (or_introl eq_refl)) as [|Hy]; [congruence|].
        specialize (Hfa _ Hy); specialize (Hfb _ Hx); lia. }
      f_equal; apply IH; try assumption.
      intros z; split; intros Hz.
      * destruct (proj1 (Hab z) (or_intror Hz)) as [<-|]; [|assumption].
        specialize (Hfa _ Hz); lia.
      * destruct (proj2 (Hab z) (or_intror Hz)) as [<-|]; [|assumption].
        specialize (Hfb _ Hz); lia.
Qed.

Lemma group_keys_perm (l1 l2 : list course_row) :
  Permutation l1 l2 -> group_keys l1 = group_keys l2.
Proof.
  intros Hp; apply sorted_same_elements; try apply group_keys_sorted.
  intros x; rewrite !group_keys_In.
  split; apply Permutation_in; [|symmetry]; apply Permutation_map; assumption.
Qed.

(* ------------------------------------------------------------------ *)
(** ** Sums *)

Lemma sum_q_perm (xs ys : list Q) :
  Permutation xs ys -> sum_q xs == sum_q ys.
Proof.
  induction 1; simpl.
  - reflexivity.
  - rewrite IHPermutation; reflexivity.
  - ring.
  - rewrite IHPermutation1; assumption.
Qed.

Lemma nansum_perm (xs ys : list (option Q)) :
  Permutation xs ys -> nansum xs == nansum ys.
Proof.
  induction 1 as [|x ? ? ? IH|x y ?|? ? ? ? IH1 ? IH2].
  - reflexivity.
  - destruct x; simpl; rewrite IH; reflexivity.
  - destruct x, y; simpl; try ring; reflexivity.
  - rewrite IH1; assumption.
Qed.

Lemma sum_q_app (xs ys : list Q) : sum_q (xs ++ ys) == sum_q xs + sum_q ys.
Proof.
  induction xs as [|x xs IH]; simpl; [ring|rewrite IH; ring].
Qed.

Lemma nansum_app (xs ys : list (option Q)) :
  nansum (xs ++ ys) == nansum xs + nansum ys.
Proof.
  induction xs as [|[x|] xs IH]; simpl; [ring| |]; rewrite IH; ring.
Qed.

Lemma sum_q_nonneg (xs : list Q) :
  Forall (fun x => 0 <= x) xs -> 0 <= sum_q xs.
Proof.
  induction 1 as [|x xs Hx _ IH]; simpl; [apply Qle_refl|].
  rewrite <- (Qplus_0_l 0); apply Qplus_le_compat; assumption.
Qed.

Lemma sum_q_zero (xs : list Q) :
  Forall (fun x => 0 <= x) xs -> sum_q xs == 0 -> Forall (fun x => x == 0) xs.
Proof.
  induction 1 as [|x xs Hx Hxs IH]; simpl; intros H0; constructor.
  - pose proof (sum_q_nonneg _ Hxs).
    apply Qle_antisym; [|assumption].
    rewrite <- H0, <- (Qplus_0_r x) at 1; apply Qplus_le_compat;
      [apply Qle_refl|assumption].
  - apply IH. pose proof (sum_q_nonneg _ Hxs).
    apply Qle_antisym; [|assumption].
    rewrite <- H0, <- (Qplus_0_l (sum_q xs)) at 1; apply Qplus_le_compat;
      [assumption|apply Qle_refl].
Qed.

(* ------------------------------------------------------------------ *)
(** ** The summary table *)

Lemma with_cumsum_semesters (cp cc : Q) (g : list (Z * (Q * Q * nat))) :
  map ts_semester (with_cumsum cp cc g) = map fst g.
Proof.
  revert cp cc; induction g as [|[t [[cr pts] n]] g IH]; intros cp cc;
    simpl; [reflexivity|].
  f_equal; apply IH.
Qed.

Lemma summarize_semesters (l : list course_row) :
  map ts_semester (summarize l) = group_keys l.
Proof.
  unfold summarize; rewrite with_cumsum_semesters, map_map; simpl.
  apply map_id.
Qed.

Lemma with_cumsum_find (F : Z -> Q * Q * nat) (t : Z) :
  forall (g : list (Z * (Q * Q * nat))) (cp cc : Q),
  (forall k tot, In (k, tot) g -> tot = F k) ->
  In t (map fst g) ->
  exists e, find_term t (with_cumsum cp cc g) = Some e /\
    ts_semester e = t /\ (term_credits e, term_points e, mods e) = F t /\
    sem_gpa e = fillna0 (fdiv (term_points e) (term_credits e)).
Proof.
  induction g as [|[k [[cr pts] n]] g IH]; intros cp cc HF Ht;
    simpl in *; [contradiction|].
  destruct (Z.eqb k t) eqn:Hk.
  - apply Z.eqb_eq in Hk; subst k.
    eexists; split; [reflexivity|]; simpl.
    split; [reflexivity|]; split; [|reflexivity].
    apply HF; left; reflexivity.
  - destruct Ht as [Ht|Ht]; [apply Z.eqb_neq in Hk; contradiction|].
    apply IH; [|assumption].
    intros k' tot Hin; apply HF; right; assumption.
Qed.

(** Every semester present in the record has its entry, carrying the
    lambda's totals of its group. *)
Lemma summarize_find (l : list course_row) (t : Z) :
  In t (map Semester l) ->
  exists e, find_term t (summarize l) = Some e /\ ts_semester e = t /\
    (term_credits e, term_points e, mods e) = term_totals (group_rows l t) /\
    sem_gpa e = fillna0 (fdiv (term_points e) (term_credits e)).
Proof.
  intros Ht; unfold summarize.
  apply (with_cumsum_find (fun k => term_totals (group_rows l k))).
  - intros k tot Hin; apply in_map_iff in Hin.
    destruct Hin as [k' [Heq _]]; inversion Heq; reflexivity.
  - rewrite map_map; simpl; rewrite map_id; apply group_keys_In; assumption.
Qed.

Lemma with_cumsum_nth (g : list (Z * (Q * Q * nat))) :
  forall (cp cc : Q) (i : nat) (e : term_summary),
  nth_error (with_cumsum cp cc g) i = Some e ->
  cum_credits e == cc + sum_q (map term_credits (firstn (S i) (with_cumsum cp cc g))) /\
  cum_points e == cp + sum_q (map term_points (firstn (S i) (with_cumsum cp cc g))).
Proof.
  induction g as [|[t [[cr pts] n]] g IH]; intros cp cc i e He;
    [destruct i; discriminate|].
  destruct i as [|i]; simpl in *.
  - inversion He; subst; simpl; split; ring.
  - destruct (IH _ _ _ _ He) as [Hc Hp]; simpl.
    rewrite Hc, Hp; split; ring.
Qed.

Lemma with_cumsum_step (g : list (Z * (Q * Q * nat))) :
  forall (cp cc : Q) (i : nat) (e0 e : term_summary),
  nth_error (with_cumsum cp cc g) i = Some e0 ->
  nth_error (with_cumsum cp cc g) (S i) = Some e ->
  cum_credits e = cum_credits e0 + term_credits e /\
  cum_points e = cum_points e0 + term_points e.
Proof.
  induction g as [|[t [[cr pts] n]] g IH]; intros cp cc i e0 e H0 H;
    [destruct i; discriminate|].
  destruct i as [|i]; simpl in *.
  - inversion H0; subst; clear H0.
    destruct g as [|[t' [[cr' pts'] n']] g]; simpl in H; [discriminate|].
    inversion H; subst; simpl; split; reflexivity.
  - eapply IH; eassumption.
Qed.

Lemma with_cumsum_first (cp cc : Q) (g : list (Z * (Q * Q * nat))) (e : term_summary) :
  nth_error (with_cumsum cp cc g) 0 = Some e ->
  cum_credits e = cc + term_credits e /\ cum_points e = cp + term_points e.
Proof.
  destruct g as [|[t [[cr pts] n]] g]; simpl; intros H; [discriminate|].
  inversion H; subst; simpl; split; reflexivity.
Qed.

Lemma fillna_fdiv (p c : Q) :
  (c == 0 -> p == 0) -> fillna0 (fdiv p c) = Fin (ratio_or_zero p c).
Proof.
  intros Hpc; unfold fdiv, ratio_or_zero.
  destruct (Qeq_bool c 0) eqn:Hc; [|reflexivity].
  apply Qeq_bool_eq in Hc.
  rewrite (Qeq_eq_bool _ _ (Hpc Hc)); reflexivity.
Qed.

Lemma with_cumsum_gpa (g : list (Z * (Q * Q * nat))) :
  Forall (fun x => 0 <= fst (fst (snd x)) /\
                   (fst (fst (snd x)) == 0 -> snd (fst (snd x)) == 0)) g ->
  forall cp cc, 0 <= cc -> (cc == 0 -> cp == 0) ->
  forall e, In e (with_cumsum cp cc g) ->
  sem_gpa e = Fin (ratio_or_zero (term_points e) (term_credits e)) /\
  cum_gpa e = Fin (ratio_or_zero (cum_points e) (cum_credits e)).
Proof.
  induction 1 as [|[t [[cr pts] n]] g [Hcr Hpts] _ IH];
    intros cp cc Hcc Hcp e He; simpl in *; [contradiction|].
  assert (Hcc' : 0 <= cc + cr).
  { rewrite <- (Qplus_0_l 0); apply Qplus_le_compat; assumption. }
  assert (Hcp' : cc + cr == 0 -> cp + pts == 0).
  { intros H0.
    assert (cc == 0) as Hc0.
    { apply Qle_antisym; [|assumption].
      rewrite <- H0, <- (Qplus_0_r cc) at 1; apply Qplus_le_compat;
        [apply Qle_refl|assumption]. }
    assert (cr == 0) as Hr0.
    { apply Qle_antisym; [|assumption].
      rewrite <- H0, <- (Qplus_0_l cr) at 1; apply Qplus_le_compat;
        [assumption|apply Qle_refl]. }
    rewrite (Hcp Hc0), (Hpts Hr0); reflexivity. }
  destruct He as [<-|He]; simpl.
  - split; apply fillna_fdiv; assumption.
  - eapply IH; eassumption.
Qed.

(* ------------------------------------------------------------------ *)
(** ** Per-term totals *)

Lemma term_credits_filter (l : list course_row) (t : Z) :
  sum_q (map calc_credits (group_rows l t)) ==
  sum_q (map Credits (filter (credit_bearing t) l)).
Proof.
  unfold group_rows, credit_bearing, calc_credits.
  induction l as [|r l IH]; simpl; [reflexivity|].
  destruct (Semester r =? t)%Z; simpl; [|assumption].
  destruct (SU_Opt_Out r), (in_non_gpa (Grade r)); simpl; rewrite IH; ring.
Qed.

Lemma term_points_filter (l : list course_row) (t : Z) :
  nansum (map quality_points (group_rows l t)) ==
  sum_q (map (fun r => Credits r * grade_point r) (filter (credit_bearing t) l)).
Proof.
  unfold group_rows, credit_bearing, quality_points, calc_credits, grade_point.
  induction l as [|r l IH]; cbn [filter map]; [reflexivity|].
  destruct (Semester r =? t)%Z; cbn [andb negb filter map]; [|assumption].
  destruct (SU_Opt_Out r), (in_non_gpa (Grade r));
    cbn [orb andb negb filter map nansum sum_q];
    destruct (grade_value (Grade r)); cbn [nansum]; rewrite IH; ring.
Qed.

Lemma calc_credits_nonneg (r : course_row) :
  0 <= Credits r -> 0 <= calc_credits r.
Proof.
  unfold calc_credits; destruct (_ || _); intros H; [apply Qle_refl|exact H].
Qed.

Lemma points_zero (x : list course_row) :
  Forall (fun r => calc_credits r == 0) x ->
  nansum (map quality_points x) == 0.
Proof.
  induction 1 as [|r x Hr _ IH]; simpl; [reflexivity|].
  unfold quality_points; destruct (grade_value (Grade r)); simpl;
    rewrite IH; [rewrite Hr|]; ring.
Qed.

Lemma term_totals_nonneg (x : list course_row) :
  Forall (fun r => 0 <= Credits r) x ->
  0 <= sum_q (map calc_credits x) /\
  (sum_q (map calc_credits x) == 0 -> nansum (map quality_points x) == 0).
Proof.
  intros Hx.
  assert (Hc : Forall (fun q => 0 <= q) (map calc_credits x)).
  { apply Forall_map; eapply Forall_impl; [|exact Hx].
    intros r; apply calc_credits_nonneg. }
  split; [apply sum_q_nonneg; assumption|].
  intros H0; apply points_zero.
  apply (sum_q_zero _ Hc) in H0; apply Forall_map in H0; exact H0.
Qed.

Lemma with_cumsum_In (cp cc : Q) (g : list (Z * (Q * Q * nat))) (e : term_summary) :
  In e (with_cumsum cp cc g) ->
  In (ts_semester e, (term_credits e, term_points e, mods e)) g.
Proof.
  revert cp cc; induction g as [|[t [[cr pts] n]] g IH]; intros cp cc He;
    simpl in *; [contradiction|].
  destruct He as [<-|He]; [left; reflexivity|right; eapply IH; eassumption].
Qed.

(** Every entry of the summary carries the totals of its own group. *)
Lemma summarize_entry (l : list course_row) (e : term_summary) :
  In e (summarize l) ->
  (term_credits e, term_points e, mods e) = term_totals (group_rows l (ts_semester e)).
Proof.
  unfold summarize; intros He; apply with_cumsum_In in He.
  apply in_map_iff in He; destruct He as [k [Hk _]].
  inversion Hk; subst; reflexivity.
Qed.

Lemma excluded_group_zero (l : list course_row) (t : Z) :
  (forall r, In r l -> Semester r = t -> (SU_Opt_Out r || in_non_gpa (Grade r)) = true) ->
  sum_q (map calc_credits (group_rows l t)) == 0 /\
  nansum (map quality_points (group_rows l t)) == 0.
Proof.
  intros Hx.
  assert (Hz : Forall (fun r => calc_credits r == 0) (group_rows l t)).
  { apply Forall_forall; intros r Hr.
    unfold group_rows in Hr; apply filter_In in Hr; destruct Hr as [Hr Ht].
    apply Z.eqb_eq in Ht; unfold calc_credits; rewrite (Hx r Hr Ht).
    reflexivity. }
  split; [|apply points_zero; assumption].
  induction Hz as [|r x Hr _ IH]; cbn [map sum_q]; [reflexivity|].
  rewrite Hr, IH; reflexivity.
Qed.

Lemma permutation_filter {A : Type} (f : A -> bool) (l1 l2 : list A) :
  Permutation l1 l2 -> Permutation (filter f l1) (filter f l2).
Proof.
  induction 1 as [|x ? ? ? IH|x y ?|? ? ? ? IH1 ? IH2]; simpl.
  - constructor.
  - destruct (f x); [constructor|]; assumption.
  - destruct (f x), (f y); try constructor; reflexivity.
  - etransitivity; eassumption.
Qed.

Lemma Qeq_bool_0_compat (a b : Q) : a == b -> Qeq_bool a 0 = Qeq_bool b 0.
Proof.
  intros Hab.
  destruct (Qeq_bool a 0) eqn:Ha, (Qeq_bool b 0) eqn:Hb; try reflexivity.
  - apply Qeq_bool_eq in Ha; apply Qeq_bool_neq in Hb.
    exfalso; apply Hb; rewrite <- Hab; assumption.
  - apply Qeq_bool_neq in Ha; apply Qeq_bool_eq in Hb.
    exfalso; apply Ha; rewrite Hab; assumption.
Qed.

Lemma Qle_bool_0_compat (a b : Q) : a == b -> Qle_bool a 0 = Qle_bool b 0.
Proof.
  intros Hab.
  destruct (Qle_bool a 0) eqn:Ha, (Qle_bool b 0) eqn:Hb; try reflexivity.
  - apply Qle_bool_iff in Ha; rewrite Hab in Ha; apply Qle_bool_iff in Ha.
    congruence.
  - apply Qle_bool_iff in Hb; rewrite <- Hab in Hb; apply Qle_bool_iff in Hb.
    congruence.
Qed.

Lemma fillna_fdiv_compat (p1 c1 p2 c2 : Q) :
  p1 == p2 -> c1 == c2 -> feq (fillna0 (fdiv p1 c1)) (fillna0 (fdiv p2 c2)).
Proof.
  intros Hp Hc; unfold fdiv.
  rewrite (Qeq_bool_0_compat _ _ Hc), (Qeq_bool_0_compat _ _ Hp),
    (Qle_bool_0_compat _ _ Hp).
  destruct (Qeq_bool c2 0); [|simpl; rewrite Hp, Hc; reflexivity].
  destruct (Qeq_bool p2 0); simpl; [reflexivity|].
  destruct (Qle_bool p2 0); exact I.
Qed.

Lemma with_cumsum_compat (g1 g2 : list (Z * (Q * Q * nat))) :
  Forall2 totals_eq g1 g2 ->
  forall cp1 cc1 cp2 cc2, cp1 == cp2 -> cc1 == cc2 ->
  Forall2 feq (map cum_gpa (with_cumsum cp1 cc1 g1))
              (map cum_gpa (with_cumsum cp2 cc2 g2)).
Proof.
  induction 1 as [|[t1 [[cr1 p1] n1]] [t2 [[cr2 p2] n2]] g1 g2 [_ [Hc Hp]] _ IH];
    intros cp1 cc1 cp2 cc2 Hcp Hcc; simpl in *; constructor.
  - apply fillna_fdiv_compat; [rewrite Hcp, Hp|rewrite Hcc, Hc]; reflexivity.
  - apply IH; [rewrite Hcp, Hp|rewrite Hcc, Hc]; reflexivity.
Qed.

Lemma last_sorted_max (xs : list Z) (m d : Z) :
  StronglySorted Z.lt xs -> In m xs -> (forall x, In x xs -> (x <= m)%Z) ->
  last xs d = m.
Proof.
  induction 1 as [|x xs Hs IH Hf]; intros Hm Hle; [contradiction|].
  destruct xs as [|y xs].
  - destruct Hm as [<-|[]]; reflexivity.
  - change (last (y :: xs) d = m).
    destruct Hm as [<-|Hm].
    + exfalso; rewrite Forall_forall in Hf.
      specialize (Hf y (or_introl eq_refl)); specialize (Hle y (or_intror (or_introl eq_refl))).
      lia.
    + apply IH; [assumption|]; intros z Hz; apply Hle; right; assumption.
Qed.

(* ------------------------------------------------------------------ *)
(** ** Claims about the summary *)

(** C1: for every record and every semester present in it, the entry of
    the summary for that semester has [Term Credits] equal to the sum of
    credits over the rows of the semester that are not S/U-opted-out and
    whose grade is not CS/CU/IP, and [Term Points] equal to the sum of
    [credits * grade_point] over the same rows; an opted-out or marker row
    contributes zero credits and zero points. *)
Theorem C1_term_totals_filter (l : list course_row) (t : Z) :
  In t (map Semester l) ->
  (exists e, find_term t (summarize l) = Some e /\
     term_credits e == sum_q (map Credits (filter (credit_bearing t) l)) /\
     term_points e ==
       sum_q (map (fun r => Credits r * grade_point r) (filter (credit_bearing t) l))) /\
  (forall r, In r l -> (SU_Opt_Out r || in_non_gpa (Grade r)) = true ->
     calc_credits r = 0 /\ nansum [quality_points r] == 0).
Proof.
  intros Ht; split.
  - destruct (summarize_find l t Ht) as [e [Hf [_ [Htot _]]]].
    exists e; split; [assumption|].
    unfold term_totals in Htot; inversion Htot as [[Hc Hp Hn]].
    rewrite Hc, Hp; split; [apply term_credits_filter|apply term_points_filter].
  - intros r _ Hx; unfold calc_credits; rewrite Hx; split; [reflexivity|].
    unfold quality_points, calc_credits; rewrite Hx.
    destruct (grade_value (Grade r)); cbn [nansum]; ring.
Qed.

(** C2: on a record with non-negative credits, every summary entry has
    [Sem GPA = Term Points / Term Credits] and [Cumulative GPA =
    Cum Points / Cum Credits], each finite and 0 when its denominator is 0;
    a semester whose rows are all opted out or CS/CU/IP has zero credits,
    zero points and GPA 0, and leaves the running totals where the previous
    semester left them (at 0 for the first semester). *)
Theorem C2_zero_denominator_policy (l : list course_row) :
  Forall (fun r => 0 <= Credits r) l ->
  (forall e, In e (summarize l) ->
     sem_gpa e = Fin (ratio_or_zero (term_points e) (term_credits e)) /\
     cum_gpa e = Fin (ratio_or_zero (cum_points e) (cum_credits e))) /\
  (forall i e, nth_error (summarize l) i = Some e ->
     (forall r, In r l -> Semester r = ts_semester e ->
        (SU_Opt_Out r || in_non_gpa (Grade r)) = true) ->
     term_credits e == 0 /\ term_points e == 0 /\ sem_gpa e = Fin 0 /\
     (i = O -> cum_credits e == 0 /\ cum_points e == 0) /\
     (forall j e0, i = S j -> nth_error (summarize l) j = Some e0 ->
        cum_credits e == cum_credits e0 /\ cum_points e == cum_points e0)).
Proof.
  intros Hl.
  assert (Hg : forall e, In e (summarize l) ->
     sem_gpa e = Fin (ratio_or_zero (term_points e) (term_credits e)) /\
     cum_gpa e = Fin (ratio_or_zero (cum_points e) (cum_credits e))).
  { intros e He; unfold summarize in *.
    eapply with_cumsum_gpa; [| |intros H; exact H|exact He]; [|apply Qle_refl].
    apply Forall_forall; intros x Hx; apply in_map_iff in Hx.
    destruct Hx as [k [<- _]]; simpl.
    apply term_totals_nonneg.
    apply Forall_forall; intros r Hr; unfold group_rows in Hr.
    apply filter_In in Hr; rewrite Forall_forall in Hl; apply Hl, Hr. }
  split; [exact Hg|].
  intros i e Hi Hx.
  assert (He : In e (summarize l)) by (eapply nth_error_In; eassumption).
  pose proof (summarize_entry l e He) as Htot.
  unfold term_totals in Htot; inversion Htot as [[Hc Hp Hn]].
  destruct (excluded_group_zero l (ts_semester e) Hx) as [Zc Zp].
  assert (Ec : term_credits e == 0) by (rewrite Hc; exact Zc).
  assert (Ep : term_points e == 0) by (rewrite Hp; exact Zp).
  split; [exact Ec|]; split; [exact Ep|]; split.
  - rewrite (proj1 (Hg e He)); unfold ratio_or_zero.
    rewrite (Qeq_eq_bool _ _ Ec); reflexivity.
  - split.
    + intros ->; unfold summarize in Hi.
      destruct (with_cumsum_first _ _ _ _ Hi) as [Fc Fp].
      rewrite Fc, Fp, Ec, Ep; split; reflexivity.
    + intros j e0 -> Hj; unfold summarize in Hi, Hj.
      destruct (with_cumsum_step _ _ _ _ _ _ Hj Hi) as [Sc Sp].
      rewrite Sc, Sp, Ec, Ep; split; ring.
Qed.

Lemma insert_key_nonempty (k : Z) (ks : list Z) : insert_key k ks <> [].
Proof.
  destruct ks as [|k' t]; simpl; [discriminate|].
  destruct (k <? k')%Z; [discriminate|]; destruct (k =? k')%Z; discriminate.
Qed.

Lemma summarize_nonempty (l : list course_row) : l <> [] -> summarize l <> [].
Proof.
  intros Hl Hs.
  assert (Hk : group_keys l = []) by (rewrite <- summarize_semesters, Hs; reflexivity).
  destruct l as [|r l]; [contradiction|]; simpl in Hk.
  apply (insert_key_nonempty _ _ Hk).
Qed.

Lemma non_gpa_known (g : cell) : in_non_gpa g = true -> grade_value g <> None.
Proof.
  destruct g as [s| | |]; simpl; try discriminate.
  unfold NON_GPA_GRADES; simpl; intros H.
  repeat (apply orb_prop in H; destruct H as [H|H]);
    try (apply String.eqb_eq in H; subst; discriminate).
  discriminate.
Qed.

Lemma group_rows_snoc (l : list course_row) (r : course_row) :
  group_rows (l ++ [r]) (Semester r) = (group_rows l (Semester r) ++ [r])%list.
Proof.
  unfold group_rows; rewrite filter_app; simpl; rewrite Z.eqb_refl; reflexivity.
Qed.

(** C3 (as amended): for every non-empty record, the honours label is
    obtained from the [Cumulative GPA] of the last summary entry (the
    summary is then non-empty), through the threshold table read top-down
    with inclusive lower bounds 4.5, 4.0, 3.5, 3.0, 2.0, falling through
    to the last label; the labels are the displayed strings, including
    their emoji and the wording "Below Graduation Req".  A cumulative GPA of
    exactly 4.5 is First Class Honours and 4.49999 Second Class (Upper). *)
Theorem C3_honours_classification (f : frame) :
  rows f <> [] ->
  exists s, s = summarize (rows f) /\ s <> [] /\
    analytics f = Some (s, last (map cum_gpa s) (Fin 0),
                        class_label (last (map cum_gpa s) (Fin 0))) /\
    (forall q, class_label (Fin q) = first_match honours_table below_label q) /\
    class_label (Fin (9#2)) = "🥇 First Class Honours" /\
    class_label (Fin (449999#100000)) = "🥈 Second Class (Upper)".
Proof.
  intros Hf; exists (summarize (rows f)).
  split; [reflexivity|]; split; [apply summarize_nonempty; assumption|].
  split; [|split; [|split; reflexivity]].
  - unfold analytics; destruct (rows f); [contradiction|reflexivity].
  - intros q; reflexivity.
Qed.

(** C4 (as amended): adding to a record a row whose grade is not a key of
    [grade_map] leaves the [Term Points] of its semester unchanged (its
    [NaN] quality points are skipped, i.e. it scores 0.0), but adds its
    credits to [Term Credits] unless it is S/U-opted-out: the row counts
    like an F, it is not excluded from the credit-bearing total. *)
Theorem C4_unknown_grade_counts_credits (l : list course_row) (r : course_row) :
  grade_value (Grade r) = None ->
  exists e, find_term (Semester r) (summarize (l ++ [r])) = Some e /\
    term_points e == nansum (map quality_points (group_rows l (Semester r))) /\
    term_credits e == sum_q (map calc_credits (group_rows l (Semester r))) +
                      (if SU_Opt_Out r then 0 else Credits r).
Proof.
  intros Hg.
  assert (Hin : In (Semester r) (map Semester (l ++ [r]))).
  { rewrite map_app; apply in_or_app; right; left; reflexivity. }
  destruct (summarize_find _ _ Hin) as [e [Hf [_ [Htot _]]]].
  exists e; split; [assumption|].
  unfold term_totals in Htot; inversion Htot as [[Hc Hp Hn]].
  rewrite group_rows_snoc in Hc, Hp.
  rewrite Hc, Hp, map_app, map_app, sum_q_app, nansum_app.
  assert (Hm : in_non_gpa (Grade r) = false).
  { destruct (in_non_gpa (Grade r)) eqn:Hm; [|reflexivity].
    exfalso; apply (non_gpa_known _ Hm Hg). }
  cbn [map nansum sum_q].
  unfold quality_points; rewrite Hg; cbn [nansum]; split; [ring|].
  unfold calc_credits at 2; rewrite Hm, orb_false_r.
  destruct (SU_Opt_Out r); ring.
Qed.

(** C7: the summary has exactly one entry per distinct semester value of
    the record, in strictly ascending numeric order; [Cum Credits] and
    [Cum Points] of the i-th entry are the sums of [Term Credits] and
    [Term Points] over entries 0..i; and when every semester value comes
    from [sem_mapping] and Special Term (99) occurs, the last entry is 99. *)
Theorem C7_sorted_running_sums (l : list course_row) :
  StronglySorted Z.lt (map ts_semester (summarize l)) /\
  (forall t, In t (map ts_semester (summarize l)) <-> In t (map Semester l)) /\
  (forall i e, nth_error (summarize l) i = Some e ->
     cum_credits e == sum_q (map term_credits (firstn (S i) (summarize l))) /\
     cum_points e == sum_q (map term_points (firstn (S i) (summarize l)))) /\
  ((forall r, In r l -> In (Semester r) (map snd sem_mapping)) ->
   In 99%Z (map Semester l) ->
   last (map ts_semester (summarize l)) 0%Z = 99%Z).
Proof.
  rewrite summarize_semesters.
  split; [apply group_keys_sorted|].
  split; [intros t; apply group_keys_In|].
  split.
  - intros i e Hi; unfold summarize in *.
    destruct (with_cumsum_nth _ _ _ _ _ Hi) as [Hc Hp].
    rewrite Hc, Hp; split; ring.
  - intros Hsem H99.
    apply last_sorted_max; [apply group_keys_sorted|apply group_keys_In; assumption|].
    intros x Hx; apply group_keys_In, in_map_iff in Hx.
    destruct Hx as [r [<- Hr]].
    specialize (Hsem r Hr); simpl in Hsem.
    repeat (destruct Hsem as [Hsem|Hsem]; [rewrite <- Hsem; lia|]); contradiction.
Qed.

(** C8: permuting the rows of a record (within or across semesters) leaves
    every [Cumulative GPA] of the summary unchanged. *)
Theorem C8_cum_gpa_permutation_invariant (l1 l2 : list course_row) :
  Permutation l1 l2 ->
  Forall2 feq (map cum_gpa (summarize l1)) (map cum_gpa (summarize l2)).
Proof.
  intros Hp; unfold summarize; rewrite (group_keys_perm _ _ Hp).
  apply with_cumsum_compat; [|reflexivity|reflexivity].
  induction (group_keys l2) as [|t ks IH]; simpl; constructor; [|exact IH].
  assert (Hg : Permutation (group_rows l1 t) (group_rows l2 t))
    by (apply permutation_filter; assumption).
  unfold totals_eq, term_totals; simpl; split; [reflexivity|]; split.
  - apply sum_q_perm, Permutation_map; assumption.
  - apply nansum_perm, Permutation_map; assumption.
Qed.

(* ------------------------------------------------------------------ *)
(** ** Import, export and add *)

Lemma forallb_mem_incl (req cols : list string) :
  incl req cols -> forallb (fun c => mem_str c cols) req = true.
Proof.
  intros Hi; apply forallb_forall; intros c Hc.
  unfold mem_str; apply existsb_exists; exists c.
  split; [apply Hi; assumption|apply String.eqb_refl].
Qed.

Lemma mem_str_false (c : string) (cols : list string) :
  mem_str c cols = false -> ~ In c cols.
Proof.
  unfold mem_str; intros H Hin.
  assert (existsb (String.eqb c) cols = true) as H'
    by (apply existsb_exists; exists c; split; [assumption|apply String.eqb_refl]).
  congruence.
Qed.

Lemma upload_fresh (st : session) (u : upload) :
  last_loaded_hash st <> Some (fingerprint u) ->
  upload_handler st (Some u) =
  match parsed u with
  | None => (st, ErrException)
  | Some df =>
      if forallb (fun c => mem_str c (raw_columns df)) REQUIRED_COLUMNS
      then (set_loaded st (su_astype df) (fingerprint u), Loaded)
      else (st, ErrMissing (filter (fun c => negb (mem_str c (raw_columns df)))
                                   REQUIRED_COLUMNS))
  end.
Proof.
  intros Hh; simpl.
  destruct (last_loaded_hash st) as [h|]; [|reflexivity].
  destruct (Z.eqb h (fingerprint u)) eqn:E; [|reflexivity].
  apply Z.eqb_eq in E; subst; contradiction.
Qed.

Lemma upload_stale (st : session) (u : upload) :
  last_loaded_hash st = Some (fingerprint u) -> upload_handler st (Some u) = (st, NoNotice).
Proof.
  intros Hh; simpl; rewrite Hh, Z.eqb_refl; reflexivity.
Qed.

Lemma hash_cases (st : session) (u : upload) :
  last_loaded_hash st = Some (fingerprint u) \/ last_loaded_hash st <> Some (fingerprint u).
Proof.
  destruct (last_loaded_hash st) as [h|]; [|right; discriminate].
  destruct (Z.eq_dec h (fingerprint u)) as [->|Hn]; [left; reflexivity|].
  right; congruence.
Qed.






(** C5 (as amended): the CSV import performs no per-row validation: for
    any table [read_csv] returns that has the five required columns (and a
    fingerprint other than the last one loaded) the import succeeds and the
    session's record becomes the uploaded rows, in order, with Course,
    Semester, Grade and Credits exactly as read, whatever the credits and
    grades, and SU_Opt_Out converted by [astype(bool)] (so a blank cell,
    [NaN], or any non-empty text becomes [True]). *)
Theorem C5_import_replaces_without_row_checks (st : session) (u : upload) (df : raw_frame) :
  parsed u = Some df ->
  last_loaded_hash st <> Some (fingerprint u) ->
  incl REQUIRED_COLUMNS (raw_columns df) ->
  upload_handler st (Some u) = (set_loaded st (su_astype df) (fingerprint u), Loaded) /\
  map (fun r => (Course r, Semester r, Grade r, Credits r))
      (rows (courses (fst (upload_handler st (Some u))))) =
    map (fun r => (raw_Course r, raw_Semester r, raw_Grade r, raw_Credits r))
        (raw_rows df) /\
  map SU_Opt_Out (rows (courses (fst (upload_handler st (Some u))))) =
    map (fun r => astype_bool (raw_SU r)) (raw_rows df) /\
  astype_bool CNaN = true /\ astype_bool (CStr "False") = true.
Proof.
  intros Hp Hh Hi; rewrite (upload_fresh st u Hh), Hp.
  rewrite (forallb_mem_incl _ _ Hi); cbn [fst courses set_loaded su_astype rows].
  rewrite !map_map; repeat split.
Qed.

(** C6: an import whose table lacks one of Course, Semester, Grade,
    Credits, SU_Opt_Out leaves the session unchanged and (for a file not
    already loaded) reports an error naming the missing column; an import
    whose table has the five columns is loaded whatever other columns it
    has; a file [read_csv] cannot parse also leaves the session unchanged. *)
Theorem C6_missing_column_rejected :
  (forall st u df c,
     parsed u = Some df -> In c REQUIRED_COLUMNS -> ~ In c (raw_columns df) ->
     fst (upload_handler st (Some u)) = st /\
     (last_loaded_hash st <> Some (fingerprint u) ->
        exists missing, snd (upload_handler st (Some u)) = ErrMissing missing /\
                        In c missing)) /\
  (forall st u df,
     parsed u = Some df -> last_loaded_hash st <> Some (fingerprint u) ->
     incl REQUIRED_COLUMNS (raw_columns df) ->
     upload_handler st (Some u) = (set_loaded st (su_astype df) (fingerprint u), Loaded)) /\
  (forall st u, parsed u = None -> fst (upload_handler st (Some u)) = st).
Proof.
  split; [|split].
  - intros st u df c Hp Hc Hn.
    assert (Hf : forallb (fun c => mem_str c (raw_columns df)) REQUIRED_COLUMNS = false).
    { destruct (forallb _ _) eqn:E; [|reflexivity].
      rewrite forallb_forall in E; specialize (E c Hc).
      exfalso; apply Hn; unfold mem_str in E; apply existsb_exists in E.
      destruct E as [c' [Hin Heq]]; apply String.eqb_eq in Heq; subst; assumption. }
    split.
    + destruct (hash_cases st u) as [Hh|Hh];
        [rewrite (upload_stale st u Hh)|rewrite (upload_fresh st u Hh), Hp, Hf];
        reflexivity.
    + intros Hh; rewrite (upload_fresh st u Hh), Hp, Hf.
      eexists; split; [reflexivity|].
      apply filter_In; split; [assumption|].
      destruct (mem_str c (raw_columns df)) eqn:E; [|reflexivity].
      exfalso; apply Hn; unfold mem_str in E; apply existsb_exists in E.
      destruct E as [c' [Hin Heq]]; apply String.eqb_eq in Heq; subst; assumption.
  - intros st u df Hp Hh Hi; rewrite (upload_fresh st u Hh), Hp.
    rewrite (forallb_mem_incl _ _ Hi); reflexivity.
  - intros st u Hp; destruct (hash_cases st u) as [Hh|Hh];
      [rewrite (upload_stale st u Hh)|rewrite (upload_fresh st u Hh), Hp];
      reflexivity.
Qed.


(** C10: the add callback appends exactly one row at the end of the record
    and keeps every earlier row at its index; the new row has the form's
    grade, credits and S/U choice, and its Course is the typed name when
    non-empty, otherwise the search selection when it is a non-empty
    string, otherwise "Unknown Course". *)
Theorem C10_add_appends_row (st : session) :
  exists r,
    rows (courses (add_course_callback st)) = (rows (courses st) ++ [r])%list /\
    (forall i r0, nth_error (rows (courses st)) i = Some r0 ->
       nth_error (rows (courses (add_course_callback st))) i = Some r0) /\
    Grade r = CStr (grade_input st) /\ Credits r = credits_input st /\
    SU_Opt_Out r = su_input st /\
    (course_name_input st <> "" -> Course r = CStr (course_name_input st)) /\
    (course_name_input st = "" -> forall sel, search_selection st = Some sel ->
       sel <> "" -> Course r = CStr sel) /\
    (course_name_input st = "" ->
       search_selection st = None \/ search_selection st = Some "" ->
       Course r = CStr "Unknown Course").
Proof.
  eexists; split; [reflexivity|].
  split.
  - intros i r0 Hi; simpl; rewrite nth_error_app1; [assumption|].
    apply nth_error_Some; congruence.
  - cbn [Grade Credits SU_Opt_Out Course]; split; [reflexivity|];
      split; [reflexivity|]; split; [reflexivity|]; unfold truthy.
    split; [|split].
    + intros Hn; apply String.eqb_neq in Hn; rewrite Hn; reflexivity.
    + intros Hn sel Hs Hne; rewrite Hn, Hs; simpl.
      apply String.eqb_neq in Hne; rewrite Hne; reflexivity.
    + intros Hn [Hs|Hs]; rewrite Hn, Hs; reflexivity.
Qed.

(* ------------------------------------------------------------------ *)
(** ** Counterexamples *)

(** C3: a record whose cumulative GPA is below 2.0 gets the label
    "⚠️ Below Graduation Req", not "Below Graduation Requirement". *)
Lemma C3_counterexample :
  exists s g lbl,
    analytics (mk_frame canonical_columns [mk_row (CStr "MA1100") 1 (CStr "F") (4#1) false])
      = Some (s, g, lbl) /\
    fge g (2#1) = false /\ lbl <> "Below Graduation Requirement".
Proof.
  do 3 eexists; split; [vm_compute; reflexivity|].
  split; [vm_compute; reflexivity|discriminate].
Qed.

(** C4: a non-opted-out row with the unknown grade "Z" and 4 credits gives
    its semester 4 credit-bearing credits, not 0. *)
Lemma C4_counterexample :
  exists e, summarize [row_tampered] = [e] /\
    grade_value (Grade row_tampered) = None /\ SU_Opt_Out row_tampered = false /\
    ~ (term_credits e == 0).
Proof.
  eexists; split; [vm_compute; reflexivity|].
  split; [reflexivity|]; split; [reflexivity|].
  vm_compute; discriminate.
Qed.

(** C5: a file with the five columns whose rows have negative credits and
    an unknown grade is loaded as it is. *)
Lemma C5_counterexample :
  exists st', upload_handler empty_session (Some upload_invalid_rows) = (st', Loaded) /\
    rows (courses st') = [row_negative; row_tampered] /\
    Credits row_negative < 0 /\ grade_value (Grade row_tampered) = None.
Proof.
  eexists; split; [vm_compute; reflexivity|].
  split; [reflexivity|]; split; [vm_compute; reflexivity|reflexivity].
Qed.


(* ------------------------------------------------------------------ *)
(** ** Witnesses: the theorems applied at concrete inputs *)

Lemma C1_witness :
  In 1%Z (map Semester spec_ledger) /\
  exists e, find_term 1 (summarize spec_ledger) = Some e /\
    term_credits e == 8 /\ term_points e == 36.
Proof.
  assert (H : In 1%Z (map Semester spec_ledger)) by (simpl; left; reflexivity).
  split; [exact H|].
  destruct (proj1 (C1_term_totals_filter spec_ledger 1 H)) as [e [Hf [Hc Hp]]].
  exists e; split; [exact Hf|]; rewrite Hc, Hp; split; vm_compute; reflexivity.
Defined.

Lemma C2_witness :
  Forall (fun r => 0 <= Credits r) spec_ledger /\
  exists e, nth_error (summarize spec_ledger) 1 = Some e /\
    term_credits e == 0 /\ sem_gpa e = Fin 0 /\ cum_credits e == 8.
Proof.
  assert (H : Forall (fun r => 0 <= Credits r) spec_ledger).
  { repeat constructor; vm_compute; discriminate. }
  split; [exact H|].
  destruct (nth_error (summarize spec_ledger) 1) as [e|] eqn:Hn;
    [|vm_compute in Hn; discriminate].
  assert (Hx : forall r, In r spec_ledger -> Semester r = ts_semester e ->
                 (SU_Opt_Out r || in_non_gpa (Grade r)) = true).
  { vm_compute in Hn; inversion Hn; subst; simpl.
    intros r Hr Hs; destruct Hr as [<-|[<-|[<-|[]]]];
      [discriminate Hs|discriminate Hs|reflexivity]. }
  destruct (proj2 (C2_zero_denominator_policy spec_ledger H) 1%nat e Hn Hx)
    as [Hc [_ [Hg [_ Hstep]]]].
  exists e; split; [reflexivity|]; split; [exact Hc|]; split; [exact Hg|].
  destruct (nth_error (summarize spec_ledger) 0) as [e0|] eqn:H0;
    [|vm_compute in H0; discriminate].
  destruct (Hstep O e0 eq_refl H0) as [Hcc _]; rewrite Hcc.
  vm_compute in H0; inversion H0; subst; vm_compute; reflexivity.
Defined.

Lemma C3_witness :
  rows (mk_frame canonical_columns spec_ledger) <> [] /\
  exists s, s = summarize spec_ledger /\ s <> [] /\
    class_label (Fin (9#2)) = "🥇 First Class Honours".
Proof.
  assert (H : rows (mk_frame canonical_columns spec_ledger) <> []) by discriminate.
  split; [exact H|].
  destruct (C3_honours_classification _ H) as [s [Hs [Hne [_ [_ [H45 _]]]]]].
  exists s; split; [exact Hs|]; split; [exact Hne|exact H45].
Defined.

Lemma C4_witness :
  grade_value (Grade row_tampered) = None /\
  exists e, find_term 2 (summarize (spec_ledger ++ [row_tampered])) = Some e /\
    term_credits e == 4 /\ term_points e == 0.
Proof.
  assert (H : grade_value (Grade row_tampered) = None) by reflexivity.
  split; [exact H|].
  destruct (C4_unknown_grade_counts_credits spec_ledger row_tampered H)
    as [e [Hf [Hp Hc]]].
  exists e; split; [exact Hf|]; rewrite Hc, Hp; split; vm_compute; reflexivity.
Defined.

Lemma C5_witness :
  incl REQUIRED_COLUMNS canonical_columns /\
  map (fun r => (Course r, Semester r, Grade r, Credits r))
      (rows (courses (fst (upload_handler empty_session (Some upload_invalid_rows))))) =
    map (fun r => (Course r, Semester r, Grade r, Credits r))
        [row_negative; row_tampered] /\
  map SU_Opt_Out
      (rows (courses (fst (upload_handler empty_session (Some upload_su_text))))) =
    [true; true; true].
Proof.
  assert (H3 : incl REQUIRED_COLUMNS canonical_columns) by (intros x Hx; exact Hx).
  assert (H2 : last_loaded_hash empty_session <> Some (fingerprint upload_invalid_rows))
    by discriminate.
  assert (H2' : last_loaded_hash empty_session <> Some (fingerprint upload_su_text))
    by discriminate.
  split; [exact H3|]; split.
  - destruct (C5_import_replaces_without_row_checks empty_session upload_invalid_rows
                _ eq_refl H2 H3) as [_ [H _]].
    rewrite H; reflexivity.
  - destruct (C5_import_replaces_without_row_checks empty_session upload_su_text
                _ eq_refl H2' H3) as [_ [_ [H _]]].
    rewrite H; vm_compute; reflexivity.
Defined.

Lemma C6_witness :
  fst (upload_handler empty_session (Some upload_no_credits)) = empty_session /\
  exists m, snd (upload_handler empty_session (Some upload_no_credits)) = ErrMissing m /\
            In "Credits" m.
Proof.
  assert (Hc : In "Credits" REQUIRED_COLUMNS) by (simpl; tauto).
  assert (Hn : ~ In "Credits" ["Course"; "Semester"; "Grade"; "SU_Opt_Out"])
    by (simpl; intuition discriminate).
  destruct (proj1 C6_missing_column_rejected empty_session upload_no_credits
              (mk_raw_frame ["Course"; "Semester"; "Grade"; "SU_Opt_Out"]
                            [raw_of_row row_cs1010])
              "Credits" eq_refl Hc Hn) as [Hst Herr].
  split; [exact Hst|]; apply Herr; discriminate.
Defined.

Lemma C7_witness :
  (forall r, In r [row_special; row_cs1010] -> In (Semester r) (map snd sem_mapping)) /\
  In 99%Z (map Semester [row_special; row_cs1010]) /\
  last (map ts_semester (summarize [row_special; row_cs1010])) 0%Z = 99%Z.
Proof.
  assert (H1 : forall r, In r [row_special; row_cs1010] ->
                 In (Semester r) (map snd sem_mapping)).
  { intros r [<-|[<-|[]]]; simpl; tauto. }
  assert (H2 : In 99%Z (map Semester [row_special; row_cs1010]))
    by (simpl; left; reflexivity).
  split; [exact H1|]; split; [exact H2|].
  destruct (C7_sorted_running_sums [row_special; row_cs1010]) as [_ [_ [_ H]]].
  exact (H H1 H2).
Defined.

Lemma C8_witness :
  Permutation spec_ledger [row_su_a; row_cs1010; row_ma1521] /\
  Forall2 feq (map cum_gpa (summarize spec_ledger))
              (map cum_gpa (summarize [row_su_a; row_cs1010; row_ma1521])).
Proof.
  assert (H : Permutation spec_ledger [row_su_a; row_cs1010; row_ma1521])
    by exact (Permutation_app_comm [row_cs1010; row_ma1521] [row_su_a]).
  split; [exact H|exact (C8_cum_gpa_permutation_invariant _ _ H)].
Defined.


Lemma C10_witness :
  exists r, rows (courses (add_course_callback session_with_selection)) = [r] /\
    Course r = CStr "CS1010: Programming Methodology".
Proof.
  destruct (C10_add_appends_row session_with_selection)
    as [r [Happ [_ [_ [_ [_ [_ [Hsel _]]]]]]]].
  exists r; split; [exact Happ|].
  apply Hsel; [reflexivity|reflexivity|discriminate].
Defined.

(* ------------------------------------------------------------------ *)
(** ** Sums over the groups of a record *)

Lemma sum_q_map_ext {A : Type} (f g : A -> Q) (xs : list A) :
  (forall x, f x == g x) -> sum_q (map f xs) == sum_q (map g xs).
Proof.
  intros H; induction xs as [|x xs IH]; cbn [map sum_q]; [reflexivity|].
  rewrite H, IH; reflexivity.
Qed.

Lemma sum_q_map_plus {A : Type} (f g : A -> Q) (xs : list A) :
  sum_q (map (fun x => f x + g x) xs) == sum_q (map f xs) + sum_q (map g xs).
Proof.
  induction xs as [|x xs IH]; cbn [map sum_q]; [ring|rewrite IH; ring].
Qed.

Lemma sum_q_indicator_out {A : Type} (p : A -> bool) (x : A) (q : Q) (ks : list A) :
  (forall k, p k = true <-> k = x) -> ~ In x ks ->
  sum_q (map (fun k => if p k then q else 0) ks) == 0.
Proof.
  intros Hp; induction ks as [|k ks IH]; intros Hx; cbn [map sum_q]; [reflexivity|].
  destruct (p k) eqn:E.
  - apply Hp in E; subst; exfalso; apply Hx; left; reflexivity.
  - rewrite IH; [ring|intros H; apply Hx; right; exact H].
Qed.

Lemma sum_q_indicator {A : Type} (p : A -> bool) (x : A) (q : Q) (ks : list A) :
  (forall k, p k = true <-> k = x) -> NoDup ks -> In x ks ->
  sum_q (map (fun k => if p k then q else 0) ks) == q.
Proof.
  intros Hp; induction 1 as [|k ks Hk Hnd IH]; intros Hx; [contradiction|].
  cbn [map sum_q]; destruct (p k) eqn:E.
  - apply Hp in E; subst.
    rewrite (sum_q_indicator_out p x q ks Hp Hk); ring.
  - destruct Hx as [<-|Hx]; [rewrite (proj2 (Hp k) eq_refl) in E; discriminate|].
    rewrite IH; [ring|exact Hx].
Qed.

Lemma sum_nat_map_plus {A : Type} (f g : A -> nat) (xs : list A) :
  sum_nat (map (fun x => (f x + g x)%nat) xs) = (sum_nat (map f xs) + sum_nat (map g xs))%nat.
Proof.
  induction xs as [|x xs IH]; simpl; [reflexivity|rewrite IH; lia].
Qed.

Lemma sum_nat_map_ext {A : Type} (f g : A -> nat) (xs : list A) :
  (forall x, f x = g x) -> sum_nat (map f xs) = sum_nat (map g xs).
Proof.
  intros H; induction xs as [|x xs IH]; simpl; [reflexivity|rewrite H, IH; reflexivity].
Qed.

Lemma sum_nat_indicator {A : Type} (p : A -> bool) (x : A) (ks : list A) :
  (forall k, p k = true <-> k = x) -> NoDup ks ->
  sum_nat (map (fun k => if p k then 1%nat else O) ks) = if existsb p ks then 1%nat else O.
Proof.
  intros Hp; induction 1 as [|k ks Hk Hnd IH]; [reflexivity|].
  simpl; rewrite IH; destruct (p k) eqn:E; simpl; [|reflexivity].
  apply Hp in E; subst.
  destruct (existsb p ks) eqn:Ex; [|reflexivity].
  apply existsb_exists in Ex; destruct Ex as [y [Hy Hpy]].
  apply Hp in Hpy; subst; contradiction.
Qed.

Lemma sorted_nodup (xs : list Z) : StronglySorted Z.lt xs -> NoDup xs.
Proof.
  induction 1 as [|x xs _ IH Hf]; constructor; [|exact IH].
  intros Hx; rewrite Forall_forall in Hf; specialize (Hf x Hx); lia.
Qed.

Lemma group_keys_nodup (l : list course_row) : NoDup (group_keys l).
Proof. apply sorted_nodup, group_keys_sorted. Qed.

(** Summing a per-row quantity group by group gives its total. *)
Lemma sum_groups (f : course_row -> Q) (l : list course_row) (ks : list Z) :
  NoDup ks -> (forall r, In r l -> In (Semester r) ks) ->
  sum_q (map (fun t => sum_q (map f (group_rows l t))) ks) == sum_q (map f l).
Proof.
  intros Hnd; induction l as [|r l IH]; intros Hk.
  - cbn [map sum_q]. rewrite (sum_q_map_ext _ (fun _ => 0)) by reflexivity.
    clear; induction ks as [|k ks IH]; cbn [map sum_q]; [reflexivity|rewrite IH; ring].
  - rewrite (sum_q_map_ext _ (fun t => (if Z.eqb (Semester r) t then f r else 0) +
                                       sum_q (map f (group_rows l t)))).
    + rewrite sum_q_map_plus, IH by (intros r' Hr'; apply Hk; right; exact Hr').
      rewrite (sum_q_indicator (fun t => Z.eqb (Semester r) t) (Semester r));
        [cbn [map sum_q]; reflexivity| |exact Hnd|apply Hk; left; reflexivity].
      intros k; rewrite Z.eqb_eq; split; intros; subst; reflexivity.
    + intros t; unfold group_rows; cbn [filter].
      destruct (Z.eqb (Semester r) t); cbn [map sum_q]; ring.
Qed.

Lemma count_groups (l : list course_row) (ks : list Z) :
  NoDup ks -> (forall r, In r l -> In (Semester r) ks) ->
  sum_nat (map (fun t => List.length (group_rows l t)) ks) = List.length l.
Proof.
  intros Hnd; induction l as [|r l IH]; intros Hk.
  - clear; induction ks as [|k ks IH]; [reflexivity|exact IH].
  - rewrite (sum_nat_map_ext _ (fun t => ((if Z.eqb (Semester r) t then 1 else 0) +
                                          List.length (group_rows l t))%nat)).
    + rewrite sum_nat_map_plus, IH by (intros r' Hr'; apply Hk; right; exact Hr').
      rewrite (sum_nat_indicator (fun t => Z.eqb (Semester r) t) (Semester r));
        [| |exact Hnd].
      * replace (existsb (fun t => Z.eqb (Semester r) t) ks) with true; [reflexivity|].
        symmetry; apply existsb_exists; exists (Semester r).
        split; [apply Hk; left; reflexivity|apply Z.eqb_refl].
      * intros k; rewrite Z.eqb_eq; split; intros; subst; reflexivity.
    + intros t; unfold group_rows; cbn [filter].
      destruct (Z.eqb (Semester r) t); reflexivity.
Qed.

Lemma nansum_as_sum_q {A : Type} (f : A -> option Q) (xs : list A) :
  nansum (map f xs) == sum_q (map (fun x => match f x with Some v => v | None => 0 end) xs).
Proof.
  induction xs as [|x xs IH]; cbn [map nansum sum_q]; [reflexivity|].
  destruct (f x); rewrite IH; ring.
Qed.

Lemma feq_trans (a b c : fval) : feq a b -> feq b c -> feq a c.
Proof.
  destruct a, b, c; simpl; try tauto; intros H1 H2; rewrite H1; exact H2.
Qed.

Lemma feq_sym (a b : fval) : feq a b -> feq b a.
Proof.
  destruct a, b; simpl; try tauto; intros H; symmetry; exact H.
Qed.

Lemma last_cons_ne {A : Type} (a : A) (xs : list A) (d : A) :
  xs <> [] -> last (a :: xs) d = last xs d.
Proof. destruct xs; [contradiction|reflexivity]. Qed.

Lemma with_cumsum_last (g : list (Z * (Q * Q * nat))) :
  forall cp cc, g <> [] ->
  feq (last (map cum_gpa (with_cumsum cp cc g)) (Fin 0))
      (fillna0 (fdiv (cp + sum_q (map (fun x => snd (fst (snd x))) g))
                     (cc + sum_q (map (fun x => fst (fst (snd x))) g)))).
Proof.
  induction g as [|[t [[cr pts] n]] g IH]; intros cp cc Hg; [contradiction|].
  destruct g as [|x g'].
  - cbn [with_cumsum map last sum_q fst snd]; apply fillna_fdiv_compat; ring.
  - cbn [with_cumsum map].
    rewrite last_cons_ne.
    + eapply feq_trans; [apply IH; discriminate|].
      apply fillna_fdiv_compat; cbn [map sum_q fst snd]; ring.
    + destruct x as [t' [[cr' pts'] n']]; discriminate.
Qed.

(** The last cumulative GPA of the summary is the ratio of the record's
    total quality points to its total credit-bearing credits. *)
Lemma summarize_last_gpa (l : list course_row) :
  l <> [] ->
  feq (last (map cum_gpa (summarize l)) (Fin 0))
      (fillna0 (fdiv (total_points l) (total_credits l))).
Proof.
  intros Hl; unfold summarize.
  eapply feq_trans; [apply with_cumsum_last|].
  - intros Hg; apply (summarize_nonempty l Hl); unfold summarize; rewrite Hg; reflexivity.
  - rewrite !map_map; cbn [fst snd]; unfold term_totals; cbn [fst snd].
    apply fillna_fdiv_compat.
    + rewrite Qplus_0_l.
      rewrite (sum_q_map_ext _ (fun t => sum_q (map (fun r => match quality_points r with
                                   Some v => v | None => 0 end) (group_rows l t))))
        by (intros t; apply nansum_as_sum_q).
      rewrite sum_groups; [|apply group_keys_nodup|].
      * unfold total_points; rewrite nansum_as_sum_q; reflexivity.
      * intros r Hr; apply group_keys_In, in_map; exact Hr.
    + rewrite Qplus_0_l, sum_groups; [reflexivity|apply group_keys_nodup|].
      intros r Hr; apply group_keys_In, in_map; exact Hr.
Qed.

Lemma Qle_bool_compat (th a b : Q) : a == b -> Qle_bool th a = Qle_bool th b.
Proof.
  intros Hab; destruct (Qle_bool th a) eqn:Ha, (Qle_bool th b) eqn:Hb; try reflexivity.
  - apply Qle_bool_iff in Ha; rewrite Hab in Ha; apply Qle_bool_iff in Ha; congruence.
  - apply Qle_bool_iff in Hb; rewrite <- Hab in Hb; apply Qle_bool_iff in Hb; congruence.
Qed.

Lemma class_label_compat (a b : fval) : feq a b -> class_label a = class_label b.
Proof.
  destruct a as [x| | |], b as [y| | |]; simpl; try tauto; intros H.
  unfold class_label, fge; rewrite !(Qle_bool_compat _ _ _ H); reflexivity.
Qed.

Lemma excluded_row_totals (l : list course_row) (r : course_row) :
  (SU_Opt_Out r || in_non_gpa (Grade r))%bool = true ->
  total_points (l ++ [r]) == total_points l /\ total_credits (l ++ [r]) == total_credits l.
Proof.
  intros Hx; unfold total_points, total_credits.
  rewrite !map_app, nansum_app, sum_q_app.
  assert (Hc : calc_credits r = 0) by (unfold calc_credits; rewrite Hx; reflexivity).
  cbn [map nansum sum_q]; unfold quality_points; rewrite Hc.
  destruct (grade_value (Grade r)); cbn [nansum]; split; ring.
Qed.

Lemma with_cumsum_mods (cp cc : Q) (g : list (Z * (Q * Q * nat))) :
  map mods (with_cumsum cp cc g) = map (fun x => snd (snd x)) g.
Proof.
  revert cp cc; induction g as [|[t [[cr pts] n]] g IH]; intros cp cc;
    simpl; [reflexivity|f_equal; apply IH].
Qed.

(* ------------------------------------------------------------------ *)
(** ** Bounds of the GPAs *)

Lemma grade_map_range (g : string) (v : Q) :
  grade_map g = Some v -> 0 <= v <= 5.
Proof.
  unfold grade_map, grade_table; cbn [assoc_lookup].
  repeat match goal with
  | |- context [String.eqb g ?k] =>
      let E := fresh "E" in destruct (String.eqb g k) eqn:E;
      [intros H; injection H as <-; lra|]
  end.
  intros H; discriminate H.
Qed.

Lemma row_points_range (r : course_row) :
  0 <= Credits r ->
  0 <= (match quality_points r with Some v => v | None => 0 end) <= 5 * calc_credits r.
Proof.
  intros Hc; pose proof (calc_credits_nonneg r Hc) as Hcc.
  unfold quality_points; destruct (grade_value (Grade r)) as [v|] eqn:Ev; [|lra].
  destruct (Grade r) as [s| | |]; simpl in Ev; try discriminate.
  apply grade_map_range in Ev; nra.
Qed.

Lemma term_points_range (x : list course_row) :
  Forall (fun r => 0 <= Credits r) x ->
  0 <= nansum (map quality_points x) <= 5 * sum_q (map calc_credits x).
Proof.
  induction 1 as [|r x Hr _ IH]; cbn [map nansum sum_q]; [lra|].
  pose proof (row_points_range r Hr) as Hp.
  destruct (quality_points r); lra.
Qed.

Lemma with_cumsum_range (g : list (Z * (Q * Q * nat))) :
  Forall (fun x => 0 <= snd (fst (snd x)) <= 5 * fst (fst (snd x))) g ->
  forall cp cc, 0 <= cp <= 5 * cc ->
  forall e, In e (with_cumsum cp cc g) ->
  0 <= term_points e <= 5 * term_credits e /\ 0 <= cum_points e <= 5 * cum_credits e.
Proof.
  induction 1 as [|[t [[cr pts] n]] g Hx _ IH]; intros cp cc Hcc e He;
    simpl in *; [contradiction|].
  destruct He as [<-|He]; simpl; [lra|].
  eapply IH; [|exact He]; lra.
Qed.

Lemma ratio_range (p c : Q) : 0 <= p <= 5 * c -> 0 <= ratio_or_zero p c <= 5.
Proof.
  intros Hpc; unfold ratio_or_zero.
  destruct (Qeq_bool c 0) eqn:Hc; [lra|].
  apply Qeq_bool_neq in Hc.
  assert (Hpos : 0 < c) by lra.
  split.
  - apply Qle_shift_div_l; [exact Hpos|lra].
  - apply Qle_shift_div_r; [exact Hpos|lra].
Qed.

Lemma summarize_range (l : list course_row) :
  Forall (fun r => 0 <= Credits r) l ->
  forall e, In e (summarize l) ->
  0 <= term_points e <= 5 * term_credits e /\ 0 <= cum_points e <= 5 * cum_credits e.
Proof.
  intros Hl; unfold summarize; apply with_cumsum_range; [|lra].
  apply Forall_forall; intros x Hx; apply in_map_iff in Hx.
  destruct Hx as [t [<- _]]; cbn [fst snd]; unfold term_totals; cbn [fst snd].
  apply term_points_range; apply Forall_forall; intros r Hr.
  unfold group_rows in Hr; apply filter_In in Hr.
  rewrite Forall_forall in Hl; apply Hl, Hr.
Qed.

Lemma summarize_gpa_ratio (l : list course_row) :
  Forall (fun r => 0 <= Credits r) l ->
  forall e, In e (summarize l) ->
  sem_gpa e = Fin (ratio_or_zero (term_points e) (term_credits e)) /\
  cum_gpa e = Fin (ratio_or_zero (cum_points e) (cum_credits e)).
Proof.
  intros Hl; unfold summarize; apply with_cumsum_gpa; [|lra|lra].
  apply Forall_forall; intros x Hx; apply in_map_iff in Hx.
  destruct Hx as [t [<- _]]; cbn [fst snd]; unfold term_totals; cbn [fst snd].
  apply term_totals_nonneg; apply Forall_forall; intros r Hr.
  unfold group_rows in Hr; apply filter_In in Hr.
  rewrite Forall_forall in Hl; apply Hl, Hr.
Qed.

Lemma with_cumsum_shape (cp cc : Q) (g : list (Z * (Q * Q * nat))) (e : term_summary) :
  In e (with_cumsum cp cc g) ->
  sem_gpa e = fillna0 (fdiv (term_points e) (term_credits e)) /\
  cum_gpa e = fillna0 (fdiv (cum_points e) (cum_credits e)).
Proof.
  revert cp cc; induction g as [|[t [[cr pts] n]] g IH]; intros cp cc He;
    simpl in *; [contradiction|].
  destruct He as [<-|He]; [split; reflexivity|eapply IH; exact He].
Qed.

(* ------------------------------------------------------------------ *)
(** ** The grade distribution *)

Lemma cell_eqb_spec (a b : cell) : cell_eqb a b = true <-> a = b.
Proof.
  destruct a as [x|x|x|], b as [y|y|y|]; simpl; split; intros H;
    try discriminate H; try reflexivity.
  all: first [apply String.eqb_eq in H; subst; reflexivity
             | apply Bool.eqb_prop in H; subst; reflexivity
             | injection H as <-; apply String.eqb_refl
             | injection H as <-; apply Bool.eqb_reflx].
Qed.

Lemma insert_by_count_perm (p : cell * nat) (acc : list (cell * nat)) :
  Permutation (insert_by_count p acc) (p :: acc).
Proof.
  induction acc as [|q t IH]; simpl; [reflexivity|].
  destruct (Nat.ltb (snd q) (snd p)); [reflexivity|].
  etransitivity; [apply perm_skip, IH|apply perm_swap].
Qed.

Lemma fold_insert_perm (ps acc : list (cell * nat)) :
  Permutation (fold_left (fun acc p => insert_by_count p acc) ps acc) (ps ++ acc).
Proof.
  revert acc; induction ps as [|p ps IH]; intros acc; simpl; [reflexivity|].
  etransitivity; [apply IH|].
  etransitivity; [apply Permutation_app_head, insert_by_count_perm|].
  symmetry; apply Permutation_middle.
Qed.

Lemma value_counts_perm (xs : list cell) :
  Permutation (value_counts xs)
              (map (fun c => (c, count_cell c xs)) (distinct_cells [] xs)).
Proof.
  unfold value_counts; rewrite <- (app_nil_r (map _ _)) at 2.
  apply fold_insert_perm.
Qed.

Lemma distinct_cells_In (c : cell) (xs seen : list cell) :
  In c (distinct_cells seen xs) <-> In c xs /\ c <> CNaN /\ ~ In c seen.
Proof.
  revert seen; induction xs as [|x xs IH]; intros seen; simpl; [tauto|].
  destruct (is_nan_cell x || existsb (cell_eqb x) seen)%bool eqn:E.
  - rewrite IH; split; [tauto|].
    intros [[Hxc|Hin] [Hn Hs]]; [subst x|tauto].
    exfalso; apply orb_prop in E; destruct E as [E|E].
    + destruct c; simpl in E; try discriminate; contradiction.
    + apply existsb_exists in E; destruct E as [y [Hy Hxy]].
      apply cell_eqb_spec in Hxy; subst; contradiction.
  - simpl; rewrite IH; apply orb_false_elim in E; destruct E as [E1 E2].
    split.
    + intros [Hxc|[Hin [Hn Hs]]].
      * subst x; split; [left; reflexivity|]; split.
        -- intros ->; discriminate E1.
        -- intros Hs; rewrite (proj2 (existsb_exists _ _)) in E2; [discriminate|].
           exists c; split; [exact Hs|apply cell_eqb_spec; reflexivity].
      * split; [right; exact Hin|]; split; [exact Hn|].
        intros Hs'; apply Hs; right; exact Hs'.
    + intros [[Hxc|Hin] [Hn Hs]]; [left; exact Hxc|].
      destruct (cell_eqb x c) eqn:Exc; [left; apply cell_eqb_spec; exact Exc|].
      right; split; [exact Hin|]; split; [exact Hn|].
      intros [Hxc|Hs']; [|contradiction].
      subst x; rewrite (proj2 (cell_eqb_spec c c) eq_refl) in Exc; discriminate.
Qed.

Lemma distinct_cells_nodup (xs seen : list cell) : NoDup (distinct_cells seen xs).
Proof.
  revert seen; induction xs as [|x xs IH]; intros seen; simpl; [constructor|].
  destruct (_ || _)%bool; [apply IH|constructor; [|apply IH]].
  rewrite distinct_cells_In; intros [_ [_ H]]; apply H; left; reflexivity.
Qed.

Lemma sum_nat_perm (xs ys : list nat) : Permutation xs ys -> sum_nat xs = sum_nat ys.
Proof. induction 1; simpl; lia. Qed.

Lemma count_In (c : cell) (xs : list cell) : In c xs -> (0 < count_cell c xs)%nat.
Proof.
  induction xs as [|x xs IH]; simpl; [contradiction|]; intros H.
  destruct (cell_eqb c x) eqn:E; [lia|].
  destruct H as [->|H]; [|apply IH; exact H].
  rewrite (proj2 (cell_eqb_spec c c) eq_refl) in E; discriminate.
Qed.

(** The counts of the distinct non-missing values add up to the number of
    non-missing values. *)
Lemma count_partition (ks xs : list cell) :
  NoDup ks -> ~ In CNaN ks -> (forall x, In x xs -> x <> CNaN -> In x ks) ->
  sum_nat (map (fun k => count_cell k xs) ks) =
  List.length (filter (fun c => negb (is_nan_cell c)) xs).
Proof.
  intros Hnd Hnan; induction xs as [|x xs IH]; intros Hk.
  - clear; induction ks as [|k ks IH]; [reflexivity|exact IH].
  - rewrite (sum_nat_map_ext _ (fun k => ((if cell_eqb k x then 1 else 0) +
                                          count_cell k xs)%nat))
      by (intros k; simpl; destruct (cell_eqb k x); reflexivity).
    rewrite sum_nat_map_plus, IH by (intros y Hy; apply Hk; right; exact Hy).
    rewrite (sum_nat_indicator _ x ks (fun k => cell_eqb_spec k x) Hnd).
    cbn [filter]; destruct (is_nan_cell x) eqn:Ex; cbn [negb].
    + destruct (existsb (fun k => cell_eqb k x) ks) eqn:Ee; [|reflexivity].
      apply existsb_exists in Ee; destruct Ee as [k [Hin Hkx]].
      apply cell_eqb_spec in Hkx; subst k.
      destruct x; try discriminate Ex; contradiction.
    + replace (existsb (fun k => cell_eqb k x) ks) with true; [reflexivity|].
      symmetry; apply existsb_exists; exists x; split.
      * apply Hk; [left; reflexivity|intros ->; discriminate Ex].
      * apply cell_eqb_spec; reflexivity.
Qed.

Lemma dist_df_entry (l : list course_row) (c : cell) (n : nat) :
  In (c, n) (dist_df l) ->
  In c (map get_chart_grade l) /\ c <> CNaN /\
  n = count_cell c (map get_chart_grade l).
Proof.
  intros Hin; apply (Permutation_in _ (value_counts_perm _)), in_map_iff in Hin.
  destruct Hin as [c' [Heq Hc']]; injection Heq as <- <-.
  apply distinct_cells_In in Hc'; destruct Hc' as [Hx [Hn _]].
  split; [exact Hx|split; [exact Hn|reflexivity]].
Qed.

Lemma assoc_lookup_In {A : Type} (k : string) (t : list (string * A)) (v : A) :
  assoc_lookup k t = Some v -> In (k, v) t.
Proof.
  induction t as [|[k' v'] t IH]; simpl; [discriminate|].
  destruct (String.eqb k k') eqn:E; [|intros H; right; apply IH, H].
  apply String.eqb_eq in E; subst; intros H; injection H as <-; left; reflexivity.
Qed.

Lemma grade_map_order (s : string) (v : Q) : grade_map s = Some v -> In s grade_order.
Proof.
  intros H; apply assoc_lookup_In in H.
  unfold grade_order; apply (in_map fst) in H; exact H.
Qed.

(* ------------------------------------------------------------------ *)
(** ** Semester labels *)

Lemma sem_label_round_trip (lbl : string) (sem : Z) :
  assoc_lookup lbl sem_mapping = Some sem -> sem_label sem = Some lbl.
Proof.
  intros H; apply assoc_lookup_In in H; unfold sem_mapping in H.
  repeat (destruct H as [H|H]; [injection H as <- <-; reflexivity|]).
  contradiction.
Qed.

Lemma z_lookup_none (k : Z) (t : list (Z * string)) :
  ~ In k (map fst t) -> z_lookup k t = None.
Proof.
  induction t as [|[k' v] t IH]; simpl; [reflexivity|]; intros Hk.
  destruct (Z.eqb_spec k k') as [->|_]; [exfalso; apply Hk; left; reflexivity|].
  apply IH; intros H; apply Hk; right; exact H.
Qed.

(* ------------------------------------------------------------------ *)
(** ** Academic years *)

Lemma py_range_In (a b s : Z) : (a <= s < b)%Z -> In s (py_range a b).
Proof.
  intros Hs; unfold py_range; apply in_map_iff.
  exists (Z.to_nat (s - a)); split; [lia|].
  apply in_seq; lia.
Qed.

Lemma get_ay_options_start (year month : Z) :
  get_ay_options year month =
  (sorted_desc (map ay_string (py_range (start_year year month - 4)
                                        (start_year year month + 2))),
   ay_string (start_year year month)).
Proof.
  unfold get_ay_options, get_current_acad_year, start_year.
  destruct (month >=? 6)%Z; reflexivity.
Qed.

(** The six options of every start year from 1004 to 9998, checked. *)
Lemma ay_table_ok :
  forallb (fun s =>
    (if list_eq_dec String.string_dec
          (sorted_desc (map ay_string (py_range (s - 4) (s + 2))))
          (map ay_string (map (fun i => (s + 1 - i)%Z) [0%Z; 1%Z; 2%Z; 3%Z; 4%Z; 5%Z]))
     then true else false) &&
    match list_index (ay_string s)
            (map ay_string (map (fun i => (s + 1 - i)%Z) [0%Z; 1%Z; 2%Z; 3%Z; 4%Z; 5%Z])) with
    | Some n => Nat.eqb n 1
    | None => false
    end)%bool
  (py_range 1004 9999) = true.
Proof. vm_compute; reflexivity. Qed.

(* ------------------------------------------------------------------ *)
(** ** Whole-record facts used below *)

Lemma analytics_some (f : frame) :
  rows f <> [] ->
  analytics f = Some (summarize (rows f), last (map cum_gpa (summarize (rows f))) (Fin 0),
                      class_label (last (map cum_gpa (summarize (rows f))) (Fin 0))).
Proof.
  unfold analytics; destruct (rows f); [contradiction|reflexivity].
Qed.

Lemma find_first {A : Type} (p : A -> bool) (l : list A) (x : A) :
  find p l = Some x ->
  exists pre post, l = (pre ++ x :: post)%list /\ Forall (fun y => p y = false) pre.
Proof.
  induction l as [|a l IH]; simpl; [discriminate|].
  destruct (p a) eqn:E.
  - intros H; injection H as <-; exists [], l; split; [reflexivity|constructor].
  - intros H; destruct (IH H) as [pre [post [-> Hf]]].
    exists (a :: pre), post; split; [reflexivity|constructor; assumption].
Qed.

Lemma mem_str_In (s : string) (l : list string) : mem_str s l = true <-> In s l.
Proof.
  unfold mem_str; rewrite existsb_exists; split.
  - intros [x [Hx E]]; apply String.eqb_eq in E; subst; exact Hx.
  - intros Hs; exists s; split; [exact Hs|apply String.eqb_refl].
Qed.

Lemma display_label_truthy (m : module_info) : truthy (display_label m) = true.
Proof. unfold truthy, display_label; destruct (moduleCode m); reflexivity. Qed.

(* ------------------------------------------------------------------ *)
(** ** Further properties of the analytics *)

(** X1: for a non-empty record, the displayed current GPA (the last
    [Cumulative GPA]) is the record's total quality points divided by its
    total credit-bearing credits, with 0/0 shown as 0. *)
Theorem X1_current_gpa_whole_record (f : frame) :
  rows f <> [] ->
  exists s g, analytics f = Some (s, g, class_label g) /\
    feq g (fillna0 (fdiv (total_points (rows f)) (total_credits (rows f)))).
Proof.
  intros Hf; rewrite (analytics_some f Hf); do 2 eexists; split; [reflexivity|].
  apply summarize_last_gpa; exact Hf.
Qed.

(** X2: appending an S/U-opted-out row or a CS/CU/IP row to a non-empty
    record changes neither the current GPA nor the honours label. *)
Theorem X2_excluded_row_keeps_gpa (f : frame) (r : course_row) :
  rows f <> [] -> (SU_Opt_Out r || in_non_gpa (Grade r))%bool = true ->
  exists s1 g1 s2 g2,
    analytics f = Some (s1, g1, class_label g1) /\
    analytics (concat_row f r) = Some (s2, g2, class_label g2) /\
    feq g1 g2 /\ class_label g1 = class_label g2.
Proof.
  intros Hf Hx.
  assert (Hf' : rows (concat_row f r) <> []) by (simpl; destruct (rows f); discriminate).
  rewrite (analytics_some f Hf), (analytics_some _ Hf').
  do 4 eexists; split; [reflexivity|]; split; [reflexivity|].
  assert (Hg : feq (last (map cum_gpa (summarize (rows f))) (Fin 0))
                   (last (map cum_gpa (summarize (rows (concat_row f r)))) (Fin 0))).
  { eapply feq_trans; [apply summarize_last_gpa, Hf|].
    apply feq_sym; eapply feq_trans; [apply summarize_last_gpa, Hf'|].
    destruct (excluded_row_totals (rows f) r Hx) as [Hp Hc].
    apply fillna_fdiv_compat; assumption. }
  split; [exact Hg|apply class_label_compat, Hg].
Qed.

(** X3: the [Mods] column of the summary adds up to the number of rows of
    the record: every row is counted in exactly one semester. *)
Theorem X3_mods_total (l : list course_row) :
  sum_nat (map mods (summarize l)) = List.length l.
Proof.
  unfold summarize; rewrite with_cumsum_mods, map_map.
  exact (count_groups l (group_keys l) (group_keys_nodup l)
           (fun r Hr => proj2 (group_keys_In l (Semester r)) (in_map Semester l r Hr))).
Qed.

(** X4: when no row has negative credits, every [Sem GPA] and
    [Cumulative GPA] of the summary is a finite number between 0 and 5, the
    Y domain of the trend chart. *)
Theorem X4_gpa_in_chart_domain (l : list course_row) :
  Forall (fun r => 0 <= Credits r) l ->
  forall e, In e (summarize l) ->
  exists q1 q2, sem_gpa e = Fin q1 /\ cum_gpa e = Fin q2 /\
    0 <= q1 <= 5 /\ 0 <= q2 <= 5.
Proof.
  intros Hl e He.
  destruct (summarize_gpa_ratio l Hl e He) as [Hs Hc].
  destruct (summarize_range l Hl e He) as [Ht Hcum].
  do 2 eexists; split; [exact Hs|]; split; [exact Hc|].
  split; apply ratio_range; assumption.
Qed.

(** X5: the first entry of the summary has cumulative totals equal to its
    term totals, so its [Cumulative GPA] equals its [Sem GPA]. *)
Theorem X5_first_term_cumulative (l : list course_row) (e : term_summary) :
  nth_error (summarize l) 0 = Some e ->
  cum_credits e == term_credits e /\ cum_points e == term_points e /\
  feq (cum_gpa e) (sem_gpa e).
Proof.
  intros He; unfold summarize in He.
  destruct (with_cumsum_first _ _ _ _ He) as [Hc Hp].
  destruct (with_cumsum_shape _ _ _ _ (nth_error_In _ _ He)) as [Hs Hcg].
  rewrite Hc, Hp; split; [ring|]; split; [ring|].
  rewrite Hs, Hcg, Hc, Hp; apply fillna_fdiv_compat; ring.
Qed.

(** X6: when no row has negative credits, [Cum Credits] and [Cum Points]
    never decrease from one summary entry to the next. *)
Theorem X6_cumulative_nondecreasing (l : list course_row) (i : nat) (e0 e : term_summary) :
  Forall (fun r => 0 <= Credits r) l ->
  nth_error (summarize l) i = Some e0 -> nth_error (summarize l) (S i) = Some e ->
  cum_credits e0 <= cum_credits e /\ cum_points e0 <= cum_points e.
Proof.
  intros Hl H0 H1.
  destruct (summarize_range l Hl e (nth_error_In _ _ H1)) as [Ht _].
  unfold summarize in H0, H1.
  destruct (with_cumsum_step _ _ _ _ _ _ H0 H1) as [Hc Hp].
  rewrite Hc, Hp; lra.
Qed.

(* ------------------------------------------------------------------ *)
(** ** The grade distribution chart *)

(** X7: an S/U-opted-out row is charted as "CS" exactly when its grade is
    one of A+, A, A-, B+, B, B-, C+, C, and as "CU" otherwise: for the
    grades D+, D, F, for the non-GPA grades CS, CU, IP, for a grade outside
    [grade_map] and for a missing grade. *)
Theorem X7_su_chart_grade (r : course_row) :
  SU_Opt_Out r = true ->
  (get_chart_grade r = CStr "CS" <->
     exists s, Grade r = CStr s /\ In s ["A+"; "A"; "A-"; "B+"; "B"; "B-"; "C+"; "C"]) /\
  (get_chart_grade r = CStr "CS" \/ get_chart_grade r = CStr "CU").
Proof.
  intros H; unfold get_chart_grade; rewrite H.
  split; [|destruct (Qle_bool _ _); [left|right]; reflexivity].
  assert (Hex : forall c : cell,
    (exists s, c = CStr s /\ In s ["A+"; "A"; "A-"; "B+"; "B"; "B-"; "C+"; "C"]) <->
    match c with
    | CStr s => mem_str s ["A+"; "A"; "A-"; "B+"; "B"; "B-"; "C+"; "C"] = true
    | _ => False
    end).
  { intros [s0| | |]; split.
    1: intros [s' [Hs Hin]]; injection Hs as <-; apply mem_str_In; exact Hin.
    1: intros Hm; exists s0; split; [reflexivity|apply mem_str_In; exact Hm].
    all: first [intros [s' [Hs _]]; discriminate Hs | intros []]. }
  rewrite Hex; clear Hex.
  destruct (Grade r) as [g| | |];
    [|cbn; split; [intros Hc; discriminate Hc|intros []] ..].
  unfold grade_map, grade_table; cbn [assoc_lookup].
  repeat match goal with
  | |- context [String.eqb g ?k] =>
      let E := fresh "E" in destruct (String.eqb g k) eqn:E;
      [apply String.eqb_eq in E; subst; vm_compute; split; intros Hc;
       first [reflexivity | discriminate Hc]|]
  end.
  unfold mem_str; cbn [existsb].
  repeat match goal with E : String.eqb g _ = false |- _ => rewrite E; clear E end.
  cbn; split; intros Hc; discriminate Hc.
Qed.

(** X8: [dist_df] has one entry per distinct non-missing chart grade, with
    that grade's number of rows (at least one); every non-missing chart
    grade has its entry, and the counts add up to the number of rows with a
    non-missing chart grade. *)
Theorem X8_grade_distribution_counts (l : list course_row) :
  sum_nat (map snd (dist_df l)) =
    List.length (filter (fun c => negb (is_nan_cell c)) (map get_chart_grade l)) /\
  NoDup (map fst (dist_df l)) /\
  (forall c n, In (c, n) (dist_df l) ->
     c <> CNaN /\ n = count_cell c (map get_chart_grade l) /\ (0 < n)%nat) /\
  (forall c, In c (map get_chart_grade l) -> c <> CNaN ->
     In (c, count_cell c (map get_chart_grade l)) (dist_df l)).
Proof.
  pose proof (value_counts_perm (map get_chart_grade l)) as Hp.
  fold (dist_df l) in Hp.
  split; [|split; [|split]].
  - rewrite (sum_nat_perm _ _ (Permutation_map snd Hp)), map_map; cbn [snd].
    apply count_partition; [apply distinct_cells_nodup| |].
    + rewrite distinct_cells_In; tauto.
    + intros x Hx Hn; apply distinct_cells_In; split; [exact Hx|split; [exact Hn|intros []]].
  - apply (Permutation_NoDup (Permutation_sym (Permutation_map fst Hp))).
    rewrite map_map; cbn [fst]; rewrite map_id; apply distinct_cells_nodup.
  - intros c n Hin; destruct (dist_df_entry l c n Hin) as [Hx [Hn ->]].
    split; [exact Hn|split; [reflexivity|apply count_In; exact Hx]].
  - intros c Hx Hn; apply (Permutation_in _ (Permutation_sym Hp)), in_map_iff.
    exists c; split; [reflexivity|]; apply distinct_cells_In; split; [exact Hx|split; [exact Hn|intros []]].
Qed.

(** X9: when every row's grade is a key of [grade_map], every grade of
    [dist_df] is one of [grade_order], the sort order of the chart's x
    axis. *)
Theorem X9_distribution_grades_in_grade_order (l : list course_row) :
  (forall r, In r l -> exists s v, Grade r = CStr s /\ grade_map s = Some v) ->
  forall c n, In (c, n) (dist_df l) -> exists s, c = CStr s /\ In s grade_order.
Proof.
  intros Hl c n Hin; destruct (dist_df_entry l c n Hin) as [Hx _].
  apply in_map_iff in Hx; destruct Hx as [r [<- Hr]].
  unfold get_chart_grade; destruct (SU_Opt_Out r).
  - destruct (Qle_bool _ _); eexists; (split; [reflexivity|]);
      eapply grade_map_order; reflexivity.
  - destruct (Hl r Hr) as [s [v [Hg Hv]]]; rewrite Hg.
    exists s; split; [reflexivity|eapply grade_map_order; exact Hv].
Qed.

(** X10: [rev_mapping] turns every semester value of [sem_mapping] back
    into its label, and gives no label to a value outside [sem_mapping]. *)
Theorem X10_rev_mapping_round_trip :
  (forall lbl sem, assoc_lookup lbl sem_mapping = Some sem -> sem_label sem = Some lbl) /\
  (forall sem, ~ In sem (map snd sem_mapping) -> sem_label sem = None).
Proof.
  split; [exact sem_label_round_trip|].
  intros sem Hs; apply z_lookup_none.
  unfold rev_mapping; rewrite map_rev, map_map; cbn [fst snd].
  rewrite <- in_rev; exact Hs.
Qed.

(* ------------------------------------------------------------------ *)
(** ** Callbacks *)

(** X11: the row added by the add callback always has a semester with a
    label on the trend chart: the selected label when it is a key of
    [sem_mapping], otherwise "Y1 S1". *)
Theorem X11_added_row_has_trend_label (st : session) :
  exists r, rows (courses (add_course_callback st)) = (rows (courses st) ++ [r])%list /\
    sem_label (Semester r) =
      Some (match assoc_lookup (sem_input_label st) sem_mapping with
            | Some _ => sem_input_label st
            | None => "Y1 S1"
            end).
Proof.
  eexists; split; [reflexivity|]; cbn [Semester].
  destruct (assoc_lookup (sem_input_label st) sem_mapping) eqn:E;
    [apply sem_label_round_trip; exact E|reflexivity].
Qed.

(** X12: pressing Add twice without typing again appends two rows; the
    second is named "Unknown Course" (the first add cleared the name and
    the search selection) and has the same semester, grade, credits and
    S/U choice as the first. *)
Theorem X12_second_add_unknown_course (st : session) :
  exists r1 r2,
    rows (courses (add_course_callback (add_course_callback st))) =
      (rows (courses st) ++ [r1; r2])%list /\
    Course r2 = CStr "Unknown Course" /\ Semester r2 = Semester r1 /\
    Grade r2 = Grade r1 /\ Credits r2 = Credits r1 /\ SU_Opt_Out r2 = SU_Opt_Out r1.
Proof.
  do 2 eexists; split.
  - cbn [add_course_callback courses concat_row rows]; rewrite <- app_assoc; reflexivity.
  - repeat split; reflexivity.
Qed.

(** X13: choosing a catalog entry and then pressing Add appends a row
    named by the module code of the first catalog row with that display
    label (no earlier row has it), with the credits fetched for it, or 4.0
    when the fetch fails. *)
Theorem X13_module_select_then_add (fetch : string -> string -> option Q)
  (selected_ay : string) (modules_df : list module_info) (m : module_info)
  (st : session) :
  In m modules_df -> Forall (fun m => moduleCode m <> "") modules_df ->
  search_selection st = Some (display_label m) ->
  exists st' m' r,
    on_module_select fetch selected_ay modules_df st = Some st' /\
    (exists pre post, modules_df = (pre ++ m' :: post)%list /\
       Forall (fun x => display_label x <> display_label m) pre) /\
    display_label m' = display_label m /\
    rows (courses (add_course_callback st')) = (rows (courses st) ++ [r])%list /\
    Course r = CStr (moduleCode m') /\
    Credits r = get_module_credits fetch selected_ay (moduleCode m') /\
    (fetch selected_ay (moduleCode m') = None -> Credits r = 4#1).
Proof.
  intros Hm Hcodes Hsel.
  destruct modules_df as [|m0 ms] eqn:Em; [contradiction|]; rewrite <- Em in *.
  destruct (find (fun x => String.eqb (display_label x) (display_label m)) modules_df)
    as [m'|] eqn:Ef.
  - destruct (find_some _ _ Ef) as [Hin Heq]; apply String.eqb_eq in Heq.
    assert (Hc : truthy (moduleCode m') = true).
    { rewrite Forall_forall in Hcodes; unfold truthy.
      rewrite (proj2 (String.eqb_neq _ _) (Hcodes m' Hin)); reflexivity. }
    eexists; exists m'; eexists; split.
    + unfold on_module_select; rewrite Hsel, display_label_truthy, Em.
      cbn [negb andb]; rewrite <- Em, Ef; reflexivity.
    + split.
      { destruct (find_first _ _ _ Ef) as [pre [post [Hl Hf]]].
        exists pre, post; split; [exact Hl|].
        eapply Forall_impl; [|exact Hf]; intros x Hx; apply String.eqb_neq; exact Hx. }
      split; [exact Heq|]; split; [reflexivity|].
      cbn [Course Credits course_name_input credits_input]; rewrite Hc.
      split; [reflexivity|]; split; [reflexivity|].
      intros Hf; unfold get_module_credits; rewrite Hf; reflexivity.
  - exfalso; apply (find_none _ _ Ef) in Hm; rewrite String.eqb_refl in Hm.
    discriminate.
Qed.

(** X14: once a file has been loaded, uploading the same file again (same
    fingerprint) after editing the record in the data editor keeps the
    edited record and shows nothing. *)
Theorem X14_reupload_after_edit_ignored (st st1 : session) (u : upload) (edited : frame) :
  upload_handler st (Some u) = (st1, Loaded) ->
  upload_handler (editor_sync st1 edited) (Some u) = (editor_sync st1 edited, NoNotice).
Proof.
  intros H.
  assert (Hh : last_loaded_hash st1 = Some (fingerprint u)).
  { destruct (hash_cases st u) as [Hs|Hs].
    - rewrite (upload_stale _ _ Hs) in H; discriminate.
    - rewrite (upload_fresh _ _ Hs) in H.
      destruct (parsed u) as [df|]; [|discriminate].
      destruct (forallb _ _); inversion H; reflexivity. }
  apply upload_stale; exact Hh.
Qed.

(** X15: Reset empties the record (no analytics), forgets the last loaded
    file and bumps [uploader_id]; afterwards any readable file with the
    required columns loads, even the file loaded last. *)
Theorem X15_reset_then_reload (a : app_state) (u : upload) (df : raw_frame) :
  parsed u = Some df -> incl REQUIRED_COLUMNS (raw_columns df) ->
  analytics (courses (app (reset_app_callback a))) = None /\
  uploader_id (reset_app_callback a) = (uploader_id a + 1)%Z /\
  upload_handler (app (reset_app_callback a)) (Some u) =
    (set_loaded (app (reset_app_callback a)) (su_astype df) (fingerprint u), Loaded).
Proof.
  intros Hp Hinc; split; [reflexivity|]; split; [reflexivity|].
  rewrite upload_fresh by discriminate.
  rewrite Hp, (forallb_mem_incl _ _ Hinc); reflexivity.
Qed.

(** X16: for a current year from 1005 to 9998, the academic-year options
    are the six years from the next one down to four before the current
    one, newest first, and the current year is at index 1, so the
    [ValueError] fallback to index 0 never applies. *)
Theorem X16_ay_options_default_index (year month : Z) :
  (1005 <= year <= 9998)%Z ->
  get_ay_options year month =
    (map ay_string (map (fun i => (start_year year month + 1 - i)%Z)
                        [0%Z; 1%Z; 2%Z; 3%Z; 4%Z; 5%Z]),
     ay_string (start_year year month)) /\
  default_index year month = 1%nat.
Proof.
  intros Hy.
  assert (Hs : (1004 <= start_year year month < 9999)%Z)
    by (unfold start_year; destruct (month >=? 6)%Z; lia).
  pose proof ay_table_ok as H; rewrite forallb_forall in H.
  specialize (H _ (py_range_In _ _ _ Hs)); apply andb_true_iff in H.
  destruct H as [H1 H2].
  destruct (list_eq_dec _ _ _) as [Heq|]; [|discriminate H1].
  split; [rewrite get_ay_options_start, Heq; reflexivity|].
  unfold default_index; rewrite get_ay_options_start, Heq; cbv beta iota.
  destruct (list_index _ _) as [n|]; [|discriminate H2].
  apply Nat.eqb_eq in H2; exact H2.
Qed.

(* ------------------------------------------------------------------ *)
(** ** Witnesses of the further properties *)

Lemma X1_witness :
  rows (mk_frame canonical_columns spec_ledger) <> [] /\
  exists s g, analytics (mk_frame canonical_columns spec_ledger) = Some (s, g, class_label g) /\
    feq g (fillna0 (fdiv (total_points spec_ledger) (total_credits spec_ledger))).
Proof.
  assert (H : rows (mk_frame canonical_columns spec_ledger) <> []) by discriminate.
  split; [exact H|exact (X1_current_gpa_whole_record _ H)].
Defined.

Lemma X2_witness :
  rows (mk_frame canonical_columns [row_cs1010; row_ma1521]) <> [] /\
  (SU_Opt_Out row_su_a || in_non_gpa (Grade row_su_a))%bool = true /\
  exists s1 g1 s2 g2,
    analytics (mk_frame canonical_columns [row_cs1010; row_ma1521]) = Some (s1, g1, class_label g1) /\
    analytics (concat_row (mk_frame canonical_columns [row_cs1010; row_ma1521]) row_su_a)
      = Some (s2, g2, class_label g2) /\
    feq g1 g2 /\ class_label g1 = class_label g2.
Proof.
  assert (H1 : rows (mk_frame canonical_columns [row_cs1010; row_ma1521]) <> []) by discriminate.
  assert (H2 : (SU_Opt_Out row_su_a || in_non_gpa (Grade row_su_a))%bool = true) by reflexivity.
  split; [exact H1|split; [exact H2|exact (X2_excluded_row_keeps_gpa _ _ H1 H2)]].
Defined.

Lemma X4_witness :
  exists e, Forall (fun r => 0 <= Credits r) spec_ledger /\ In e (summarize spec_ledger) /\
  exists q1 q2, sem_gpa e = Fin q1 /\ cum_gpa e = Fin q2 /\ 0 <= q1 <= 5 /\ 0 <= q2 <= 5.
Proof.
  assert (Hl : Forall (fun r => 0 <= Credits r) spec_ledger)
    by (repeat constructor; apply Qle_bool_iff; reflexivity).
  destruct (summarize spec_ledger) as [|e s] eqn:E; [vm_compute in E; discriminate|].
  assert (He : In e (summarize spec_ledger)) by (rewrite E; left; reflexivity).
  exists e; split; [exact Hl|split; [left; reflexivity|exact (X4_gpa_in_chart_domain _ Hl e He)]].
Defined.

Lemma X5_witness :
  exists e, nth_error (summarize spec_ledger) 0 = Some e /\
    cum_credits e == term_credits e /\ cum_points e == term_points e /\
    feq (cum_gpa e) (sem_gpa e).
Proof.
  destruct (nth_error (summarize spec_ledger) 0) as [e|] eqn:E; [|vm_compute in E; discriminate].
  exists e; split; [reflexivity|exact (X5_first_term_cumulative _ _ E)].
Defined.

Lemma X6_witness :
  exists e0 e, Forall (fun r => 0 <= Credits r) spec_ledger /\
    nth_error (summarize spec_ledger) 0 = Some e0 /\
    nth_error (summarize spec_ledger) 1 = Some e /\
    cum_credits e0 <= cum_credits e /\ cum_points e0 <= cum_points e.
Proof.
  assert (Hl : Forall (fun r => 0 <= Credits r) spec_ledger)
    by (repeat constructor; apply Qle_bool_iff; reflexivity).
  destruct (nth_error (summarize spec_ledger) 0) as [e0|] eqn:E0; [|vm_compute in E0; discriminate].
  destruct (nth_error (summarize spec_ledger) 1) as [e|] eqn:E1; [|vm_compute in E1; discriminate].
  exists e0, e; split; [exact Hl|split; [reflexivity|split; [reflexivity|]]].
  exact (X6_cumulative_nondecreasing _ 0 _ _ Hl E0 E1).
Defined.

Lemma X7_witness :
  SU_Opt_Out row_su_a = true /\
  (get_chart_grade row_su_a = CStr "CS" <->
     exists s, Grade row_su_a = CStr s /\
               In s ["A+"; "A"; "A-"; "B+"; "B"; "B-"; "C+"; "C"]) /\
  (get_chart_grade row_su_a = CStr "CS" \/ get_chart_grade row_su_a = CStr "CU").
Proof.
  assert (H : SU_Opt_Out row_su_a = true) by reflexivity.
  split; [exact H|exact (X7_su_chart_grade row_su_a H)].
Defined.

Lemma X9_witness :
  exists c n, (forall r, In r spec_ledger -> exists s v, Grade r = CStr s /\ grade_map s = Some v) /\
    In (c, n) (dist_df spec_ledger) /\ exists s, c = CStr s /\ In s grade_order.
Proof.
  assert (Hl : forall r, In r spec_ledger -> exists s v, Grade r = CStr s /\ grade_map s = Some v).
  { intros r [<-|[<-|[<-|[]]]]; do 2 eexists; split; reflexivity. }
  destruct (dist_df spec_ledger) as [|[c n] t] eqn:E; [vm_compute in E; discriminate|].
  assert (Hin : In (c, n) (dist_df spec_ledger)) by (rewrite E; left; reflexivity).
  exists c, n; split; [exact Hl|split; [left; reflexivity|]].
  exact (X9_distribution_grades_in_grade_order _ Hl c n Hin).
Defined.

Lemma X13_witness :
  In (mk_module "CS1010" "Programming Methodology") [mk_module "CS1010" "Programming Methodology"] /\
  Forall (fun m => moduleCode m <> "") [mk_module "CS1010" "Programming Methodology"] /\
  search_selection session_with_selection =
    Some (display_label (mk_module "CS1010" "Programming Methodology")) /\
  exists st' m' r,
    on_module_select (fun _ _ => None) "2025-2026"
      [mk_module "CS1010" "Programming Methodology"] session_with_selection = Some st' /\
    (exists pre post, [mk_module "CS1010" "Programming Methodology"] = (pre ++ m' :: post)%list /\
       Forall (fun x => display_label x <>
                        display_label (mk_module "CS1010" "Programming Methodology")) pre) /\
    display_label m' = display_label (mk_module "CS1010" "Programming Methodology") /\
    rows (courses (add_course_callback st')) = (rows (courses session_with_selection) ++ [r])%list /\
    Course r = CStr (moduleCode m') /\
    Credits r = get_module_credits (fun _ _ => None) "2025-2026" (moduleCode m') /\
    ((fun _ _ => None) "2025-2026" (moduleCode m') = @None Q -> Credits r = 4#1).
Proof.
  assert (H1 : In (mk_module "CS1010" "Programming Methodology")
                  [mk_module "CS1010" "Programming Methodology"]) by (left; reflexivity).
  assert (H2 : Forall (fun m => moduleCode m <> "") [mk_module "CS1010" "Programming Methodology"])
    by (repeat constructor; discriminate).
  assert (H3 : search_selection session_with_selection =
               Some (display_label (mk_module "CS1010" "Programming Methodology"))) by reflexivity.
  split; [exact H1|split; [exact H2|split; [exact H3|]]].
  exact (X13_module_select_then_add (fun _ _ => None) "2025-2026" _ _ _ H1 H2 H3).
Defined.

Lemma X14_witness :
  let u := mk_upload 3 (Some (mk_raw_frame canonical_columns [raw_of_row row_cs1010])) in
  let st1 := fst (upload_handler empty_session (Some u)) in
  let edited := mk_frame canonical_columns [row_cs1010; row_ma1521] in
  upload_handler empty_session (Some u) = (st1, Loaded) /\
  upload_handler (editor_sync st1 edited) (Some u) = (editor_sync st1 edited, NoNotice).
Proof.
  intros u st1 edited.
  assert (H : upload_handler empty_session (Some u) = (st1, Loaded)) by reflexivity.
  split; [exact H|exact (X14_reupload_after_edit_ignored _ _ _ edited H)].
Defined.

Lemma X15_witness :
  let df := mk_raw_frame canonical_columns [raw_of_row row_cs1010] in
  let u := mk_upload 3 (Some df) in
  let a := mk_app (set_loaded empty_session (su_astype df) 3) 0 in
  parsed u = Some df /\ incl REQUIRED_COLUMNS (raw_columns df) /\
  analytics (courses (app (reset_app_callback a))) = None /\
  uploader_id (reset_app_callback a) = 1%Z /\
  upload_handler (app (reset_app_callback a)) (Some u) =
    (set_loaded (app (reset_app_callback a)) (su_astype df) 3, Loaded).
Proof.
  intros df u a.
  assert (H1 : parsed u = Some df) by reflexivity.
  assert (H2 : incl REQUIRED_COLUMNS (raw_columns df)) by (intros x Hx; exact Hx).
  split; [exact H1|split; [exact H2|]].
  exact (X15_reset_then_reload a u df H1 H2).
Defined.

Lemma X16_witness :
  (1005 <= 2026 <= 9998)%Z /\
  get_ay_options 2026 3 =
    (map ay_string (map (fun i => (start_year 2026 3 + 1 - i)%Z) [0%Z; 1%Z; 2%Z; 3%Z; 4%Z; 5%Z]),
     ay_string (start_year 2026 3)) /\
  default_index 2026 3 = 1%nat.
Proof.
  assert (H : (1005 <= 2026 <= 9998)%Z) by lia.
  split; [exact H|exact (X16_ay_options_default_index 2026 3 H)].
Defined.
